(** * WorldView-3 radiometric calibration and water classification

    A shallow embedding of [src/vw/tools/multispectral.h]: the metadata
    reader [load_worldview3_metadata], the derive step
    [populate_derived_values], the per-pixel conversion [convert_to_toa],
    the three spectral indices and [DetectWaterWorldView3Functor].

    Numbers are modelled as the code has them.  A C++ [float] is an IEEE-754
    binary32 value and a [double] a binary64 value; both are values of
    [spec_float], the operations being those of the standard library's
    [SpecFloat] at precision 24 / 53, so every arithmetic step rounds the
    way the compiled code does (round to nearest, ties to even). *)

From Stdlib Require Import ZArith List String Ascii Bool Lia.
From Stdlib Require Import SpecFloat.
Import ListNotations.

Local Open Scope Z_scope.

(** ** IEEE-754 arithmetic at the two formats the source uses *)

Module IEEE.

Definition float := spec_float.
Definition double := spec_float.

Definition fprec : Z := 24.
Definition femax : Z := 128.
Definition dprec : Z := 53.
Definition demax : Z := 1024.

Definition fadd : float -> float -> float := SFadd fprec femax.
Definition fsub : float -> float -> float := SFsub fprec femax.
Definition fmul : float -> float -> float := SFmul fprec femax.
Definition fdiv : float -> float -> float := SFdiv fprec femax.

Definition dsub : double -> double -> double := SFsub dprec demax.
Definition dmul : double -> double -> double := SFmul dprec demax.
Definition ddiv : double -> double -> double := SFdiv dprec demax.

(** [x == y] and [x > y] of C++; both are false as soon as a NaN is
    involved. *)
Definition feq (x y : spec_float) : bool := SFeqb x y.
Definition fgt (x y : spec_float) : bool := SFltb y x.

(** Widening conversion [float -> double] (exact). *)
Definition to_double (x : float) : double :=
  match x with
  | S754_finite s m e => binary_round dprec demax s m e
  | _ => x
  end.

(** Narrowing conversion [double -> float] (rounds). *)
Definition to_float (x : double) : float :=
  match x with
  | S754_finite s m e => binary_round fprec femax s m e
  | _ => x
  end.

(** Integer to floating point. *)
Definition float_of_Z (z : Z) : float := binary_normalize fprec femax z 0 false.
Definition double_of_Z (z : Z) : double := binary_normalize dprec demax z 0 false.

(** A decimal literal [num/den] of type [double], with [num] and [den]
    below [2^53]: the division of two exactly represented integers is the
    correctly rounded value of the literal. *)
Definition dlit (num den : Z) : double := ddiv (double_of_Z num) (double_of_Z den).

(** The same literal stored in a [float] object. *)
Definition flit (num den : Z) : float := to_float (dlit num den).

Definition fzero : float := S754_zero false.
Definition fone : float := float_of_Z 1.

Definition is_finite_nonzero (x : spec_float) : bool :=
  match x with
  | S754_finite _ _ _ => true
  | _ => false
  end.

Definition is_nan (x : spec_float) : bool :=
  match x with S754_nan => true | _ => false end.

Definition is_inf (x : spec_float) : bool :=
  match x with S754_infinity _ => true | _ => false end.

(** Structural equality of two values, for checks by evaluation. *)
Definition same (x y : spec_float) : bool :=
  match x, y with
  | S754_zero a, S754_zero b => Bool.eqb a b
  | S754_infinity a, S754_infinity b => Bool.eqb a b
  | S754_nan, S754_nan => true
  | S754_finite a m e, S754_finite b m' e' =>
      Bool.eqb a b && Pos.eqb m m' && Z.eqb e e'
  | _, _ => false
  end.

(** [P] on every integer written with [k] more binary digits after those
    of [z], that is on [z * 2^k .. z * 2^k + 2^k - 1]. *)
Fixpoint all_suffixes (k : nat) (z : Z) (P : Z -> bool) : bool :=
  match k with
  | O => P z
  | S k' => all_suffixes k' (2 * z) P && all_suffixes k' (2 * z + 1) P
  end.

(** [M_PI] of <math.h>, 0x1.921fb54442d18p+1. *)
Definition M_PI : double := S754_finite false 7074237752028440 (-51).

End IEEE.
Import IEEE.

(** ** Exceptions, [std::string] members and [atoi] *)

(** The exceptions the code can raise: [vw::ArgumentErr] with its message,
    thrown by [vw_throw], and [std::out_of_range], thrown by
    [std::string::substr] when the start position lies beyond the end. *)
Inductive exn :=
| ArgumentErr (msg : string)
| out_of_range.

Inductive result (A : Type) :=
| Ok (a : A)
| Throw (e : exn).
Arguments Ok {A} a.
Arguments Throw {A} e.

Definition bind {A B} (r : result A) (k : A -> result B) : result B :=
  match r with
  | Ok a => k a
  | Throw e => Throw e
  end.

Notation "x <- r ;; k" := (bind r (fun x => k))
  (at level 61, r at next level, right associativity).

Definition succeeds {A} (r : result A) : bool :=
  match r with Ok _ => true | Throw _ => false end.

Module Cxx.

Local Open Scope string_scope.

(** [size_t] is 64 bits wide; [std::string::npos] is its largest value and
    arithmetic on positions wraps around. *)
Definition npos : Z := 2 ^ 64 - 1.
Definition size_t_add (a b : Z) : Z := (a + b) mod 2 ^ 64.

Definition size (s : string) : Z := Z.of_nat (String.length s).

Fixpoint find_first (s pat : string) : option nat :=
  if prefix pat s then Some O
  else match s with
       | EmptyString => None
       | String _ s' => option_map S (find_first s' pat)
       end.

(** [s.find(pat)] *)
Definition find (s pat : string) : Z :=
  match find_first s pat with
  | Some p => Z.of_nat p
  | None => npos
  end.

(** [s.find(pat) != std::string::npos] *)
Definition found (s pat : string) : bool := negb (find s pat =? npos)%Z.

Fixpoint drop (n : nat) (s : string) : string :=
  match n, s with
  | O, _ => s
  | S _, EmptyString => EmptyString
  | S n', String _ s' => drop n' s'
  end.

(** [s.substr(pos)] *)
Definition substr_from (s : string) (pos : Z) : result string :=
  if (size s <? pos)%Z then Throw out_of_range
  else Ok (drop (Z.to_nat pos) s).

(** [s.substr(pos, len)] *)
Definition substr (s : string) (pos len : nat) : result string :=
  if (String.length s <? pos)%nat then Throw out_of_range
  else Ok (substring pos len s).

(** <ctype.h> in the C locale. *)
Definition isspace (c : ascii) : bool :=
  let n := nat_of_ascii c in
  ((n =? 32) || ((9 <=? n) && (n <=? 13)))%nat.

Definition isdigit (c : ascii) : bool :=
  let n := nat_of_ascii c in
  ((48 <=? n) && (n <=? 57))%nat.

Fixpoint skip_spaces (s : string) : string :=
  match s with
  | String c s' => if isspace c then skip_spaces s' else s
  | EmptyString => s
  end.

Fixpoint digits (acc : Z) (s : string) : Z :=
  match s with
  | String c s' =>
      if isdigit c then digits (10 * acc + (Z.of_nat (nat_of_ascii c) - 48)) s'
      else acc
  | EmptyString => acc
  end.

(** Whether a conversion can be performed at all: after the white space
    and an optional sign there is a digit. *)
Definition starts_number (s : string) : bool :=
  match skip_spaces s with
  | String c s' =>
      if isdigit c then true
      else if (c =? "-")%char || (c =? "+")%char then
        match s' with
        | String d _ => isdigit d
        | EmptyString => false
        end
      else false
  | EmptyString => false
  end.

(** [atoi(s.c_str())]: skips white space, reads an optional sign and the
    longest run of decimal digits, and yields 0 when there is none.  The
    strings converted here have at most four characters, so the value
    always fits an [int]. *)
Definition atoi (s : string) : Z :=
  match skip_spaces s with
  | String c s' =>
      if (c =? "-")%char then - digits 0 s'
      else if (c =? "+")%char then digits 0 s'
      else digits 0 (String c s')
  | EmptyString => 0
  end.

End Cxx.
Import Cxx.

(** ** Data model *)

Definition NUM_WORLDVIEW_BANDS : Z := 8.

(** A [Vector<T, 8>] is a fixed array; it is read and written at the
    indices 0..7 only, and is modelled as the function giving the element at
    each index. *)
Definition Vector8 (T : Type) : Type := Z -> T.

Definition vset {T} (v : Vector8 T) (i : Z) (x : T) : Vector8 T :=
  fun j => if j =? i then x else v j.

Definition vec_of_list {T} (d : T) (l : list T) : Vector8 T :=
  fun i => nth (Z.to_nat i) l d.

(** Band-averaged solar spectral irradiance, the table of the source. *)
Definition WORLDVIEW_ESUN : Vector8 float :=
  vec_of_list fzero
    [ flit 17582229 10000   (* Coastal  *)
    ; flit 19742416 10000   (* Blue     *)
    ; flit 18564104 10000   (* Green    *)
    ; flit 17384791 10000   (* Yellow   *)
    ; flit 15594555 10000   (* Red      *)
    ; flit 13420695 10000   (* Red Edge *)
    ; flit 10697302 10000   (* NIR 1    *)
    ; flit  8612866 10000   (* NIR 2    *)
    ].

Inductive WORLDVIEW3_CHANNEL_INDICES :=
| COASTAL | BLUE | GREEN | YELLOW | RED | RED_EDGE | NIR1 | NIR2.

Definition index_of (c : WORLDVIEW3_CHANNEL_INDICES) : Z :=
  match c with
  | COASTAL => 0
  | BLUE => 1
  | GREEN => 2
  | YELLOW => 3
  | RED => 4
  | RED_EDGE => 5
  | NIR1 => 6
  | NIR2 => 7
  end.

Coercion index_of : WORLDVIEW3_CHANNEL_INDICES >-> Z.

(** Modelled from the spec: [PixelMask] (vw/Image/PixelMask.h) is not among
    the sources.  A masked pixel is its channel values with one validity
    flag for all of them; indexing reaches the channels and leaves the flag
    alone, and a cast converts every channel and keeps the flag. *)
Record PixelMask (T : Type) := mkPixel {
  child : Vector8 T;
  is_valid : bool
}.
Arguments mkPixel {T} child is_valid.
Arguments child {T} p.
Arguments is_valid {T} p.

(** Raw counts are [uint16] values, kept as integers in [0, 65536). *)
Definition WorldView3PixelType := PixelMask Z.
Definition WorldView3ToaPixelType := PixelMask float.

Definition channel {T} (p : PixelMask T) (i : Z) : T := child p i.

Definition set_channel {T} (p : PixelMask T) (i : Z) (x : T) : PixelMask T :=
  mkPixel (vset (child p) i x) (is_valid p).

Definition pixel_cast (p : WorldView3PixelType) : WorldView3ToaPixelType :=
  mkPixel (fun i => float_of_Z (child p i)) (is_valid p).

Record WorldViewMetadataContainer := mkMetadata {
  abs_cal_factor : Vector8 float;
  effective_bandwidth : Vector8 float;
  mean_sun_elevation : float;   (* degrees *)
  earth_sun_distance : float;   (* AU *)
  datetime : string
}.

(** Modelled from the spec: the three [FLOOD_DETECT_*] constants are
    declared in vw/tools/flood_common.h, which is not among the sources;
    the classification label is one of three distinct values. *)
Inductive flood_label :=
| FLOOD_DETECT_WATER
| FLOOD_DETECT_LAND
| FLOOD_DETECT_NODATA.

(** [for (int i = i0; i < i0 + n; ++i) body] on a loop state of type [A]. *)
Fixpoint for_loop {A} (n : nat) (i : Z) (body : Z -> A -> A) (a : A) : A :=
  match n with
  | O => a
  | S n' => for_loop n' (i + 1) body (body i a)
  end.

Definition for_each_band {A} (body : Z -> A -> A) (a : A) : A :=
  for_loop (Z.to_nat NUM_WORLDVIEW_BANDS) 0 body a.

(** ** Spectral indices and the classifier *)

Definition compute_ndvi (pixel : WorldView3ToaPixelType) : float :=
  let denom := fadd (channel pixel RED) (channel pixel NIR2) in
  if feq denom (float_of_Z 0) then float_of_Z 0
  else fdiv (fsub (channel pixel RED) (channel pixel NIR2)) denom.

Definition compute_ndwi (pixel : WorldView3ToaPixelType) : float :=
  let denom := fadd (channel pixel BLUE) (channel pixel NIR1) in
  if feq denom (float_of_Z 0) then float_of_Z 0
  else fdiv (fsub (channel pixel BLUE) (channel pixel NIR1)) denom.

Definition compute_ndwi2 (pixel : WorldView3ToaPixelType) : float :=
  let denom := fadd (channel pixel COASTAL) (channel pixel NIR2) in
  if feq denom (float_of_Z 0) then float_of_Z 0
  else fdiv (fsub (channel pixel COASTAL) (channel pixel NIR2)) denom.

(** [operator()] of the functor.  The test [ndwi > 0.1] compares the
    [float] index, widened, with the [double] literal. *)
Definition DetectWaterWorldView3Functor (pixel : WorldView3ToaPixelType) : flood_label :=
  if is_valid pixel then
    let ndvi := compute_ndvi pixel in
    let ndwi := compute_ndwi pixel in
    if fgt (to_double ndwi) (dlit 1 10) then FLOOD_DETECT_WATER
    else FLOOD_DETECT_LAND
  else FLOOD_DETECT_NODATA.

(** ** The messages of the four [vw_throw] sites and the spec's names *)

Definition nl : string := String (ascii_of_nat 10) EmptyString.

Definition msg_not_found : string :=
  ("Error: WorldView metadata file not found!" ++ nl)%string.
Definition msg_absCalFactor : string :=
  ("Error reading absCalFactor in metadata file!" ++ nl)%string.
Definition msg_effectiveBandwidth : string :=
  ("Error reading effectiveBandwidth in metadata file!" ++ nl)%string.
Definition msg_incomplete : string :=
  ("Failed to find all required metadata!" ++ nl)%string.

(** The spec calls the two throws on a key line outside a band group a
    ParseError, and the throw of the final count test a
    MetadataIncompleteError. *)
Definition ParseError (e : exn) : Prop :=
  e = ArgumentErr msg_absCalFactor \/ e = ArgumentErr msg_effectiveBandwidth.

Definition MetadataIncompleteError : exn := ArgumentErr msg_incomplete.

(** ** The reader's loop state

    [channel_index] and [found_count] are [int] variables.  The band index
    only takes the values -1 and 0..7, and the count grows by one per line
    read, so neither leaves the range of [int] on a stream of fewer than
    2^31 lines; they are kept as integers. *)

Record scan_state := mkState {
  channel_index : Z;
  found_count : Z;
  metadata : WorldViewMetadataContainer
}.

Definition set_abs_cal_factor (md : WorldViewMetadataContainer) (i : Z) (x : float) :=
  mkMetadata (vset (abs_cal_factor md) i x) (effective_bandwidth md)
             (mean_sun_elevation md) (earth_sun_distance md) (datetime md).

Definition set_effective_bandwidth (md : WorldViewMetadataContainer) (i : Z) (x : float) :=
  mkMetadata (abs_cal_factor md) (vset (effective_bandwidth md) i x)
             (mean_sun_elevation md) (earth_sun_distance md) (datetime md).

Definition set_mean_sun_elevation (md : WorldViewMetadataContainer) (x : float) :=
  mkMetadata (abs_cal_factor md) (effective_bandwidth md)
             x (earth_sun_distance md) (datetime md).

Definition set_earth_sun_distance (md : WorldViewMetadataContainer) (x : float) :=
  mkMetadata (abs_cal_factor md) (effective_bandwidth md)
             (mean_sun_elevation md) x (datetime md).

Definition set_datetime (md : WorldViewMetadataContainer) (s : string) :=
  mkMetadata (abs_cal_factor md) (effective_bandwidth md)
             (mean_sun_elevation md) (earth_sun_distance md) s.

(** The chain of [if (name == ...) channel_index = ...] after
    [channel_index = -1]. *)
Definition band_of_group (name : string) : Z :=
  let channel_index := -1 in
  let channel_index := if (name =? "BAND_C")%string then 0 else channel_index in
  let channel_index := if (name =? "BAND_B")%string then 1 else channel_index in
  let channel_index := if (name =? "BAND_G")%string then 2 else channel_index in
  let channel_index := if (name =? "BAND_Y")%string then 3 else channel_index in
  let channel_index := if (name =? "BAND_R")%string then 4 else channel_index in
  let channel_index := if (name =? "BAND_RE")%string then 5 else channel_index in
  let channel_index := if (name =? "BAND_N")%string then 6 else channel_index in
  let channel_index := if (name =? "BAND_N2")%string then 7 else channel_index in
  channel_index.

(** The text a [BEGIN_GROUP] line is resolved with:
    [line.substr(line.find("=") + 2)]. *)
Definition group_name (line : string) : result string :=
  let eqpos := find line "=" in
  substr_from line (size_t_add eqpos 2).

(** ** Spectral index selector

    The three index functions share one shape; [spectral_index] selects one
    of them and [contributing_bands] names the two bands it reads. *)

Inductive index_kind := NDVI | NDWI | NDWI2.

Definition spectral_index (k : index_kind) : WorldView3ToaPixelType -> float :=
  match k with
  | NDVI => compute_ndvi
  | NDWI => compute_ndwi
  | NDWI2 => compute_ndwi2
  end.

Definition contributing_bands (k : index_kind)
  : WORLDVIEW3_CHANNEL_INDICES * WORLDVIEW3_CHANNEL_INDICES :=
  match k with
  | NDVI => (RED, NIR2)
  | NDWI => (BLUE, NIR1)
  | NDWI2 => (COASTAL, NIR2)
  end.

(** ** Lines of the metadata stream *)

(** The eight names the chain of comparisons in the loop knows. *)
Definition recognized_band_names : list string :=
  [ "BAND_C"; "BAND_B"; "BAND_G"; "BAND_Y"; "BAND_R"; "BAND_RE"; "BAND_N"; "BAND_N2" ]%string.

(** A line the loop counts: it is not taken by the [BEGIN_GROUP] branch and
    holds one of the four keys. *)
Definition is_field_line (line : string) : bool :=
  negb (found line "BEGIN_GROUP")
  && (found line "absCalFactor" || found line "effectiveBandwidth"
      || found line "meanSunEl" || found line "firstLineTime").

Definition field_hits (lines : list string) : Z :=
  Z.of_nat (List.length (filter is_field_line lines)).

(** A [BEGIN_GROUP] line whose name is one of the eight band names. *)
Definition opens_band (line : string) : bool :=
  found line "BEGIN_GROUP"
  && match group_name line with
     | Ok name => 0 <=? band_of_group name
     | Throw _ => false
     end.

(** ** Concrete inputs

    Pixels, metadata records and a metadata file on which the definitions
    are evaluated, and stand-ins of the right types for the functions the
    header takes from elsewhere.  The stand-ins only serve to run the model
    on these inputs; every theorem of the next section is proved for
    arbitrary such functions. *)

Module Sample.

Local Open Scope string_scope.

Definition cos (x : double) : double := double_of_Z 1.
Definition DEG_TO_RAD : double := ddiv M_PI (double_of_Z 180).
Definition atof (s : string) : double := double_of_Z (atoi s).
Definition parse_metadata_line (line : string) : float := fone.
Definition compute_earth_sun_distance (year month day hour minute : Z)
           (second : float) : float := fone.

(** A container as the driver declares it, before the file is read. *)
Definition empty_metadata : WorldViewMetadataContainer :=
  mkMetadata (fun _ => fzero) (fun _ => fzero) fzero fzero "".

(** Gain and bandwidth equal in every band. *)
Definition unit_gain_metadata : WorldViewMetadataContainer :=
  mkMetadata (fun _ => fone) (fun _ => fone) (float_of_Z 90) fone "".

(** Gain and bandwidth both zero. *)
Definition zero_gain_metadata : WorldViewMetadataContainer :=
  mkMetadata (fun _ => fzero) (fun _ => fzero) (float_of_Z 90) fone "".

Definition garbage_metadata : WorldViewMetadataContainer :=
  mkMetadata (fun _ => fone) (fun _ => fone) (float_of_Z 90) fzero
             "????/??/?? ??h??m??????? (unknown)".

(** Raw pixels with the count 1000 in every band. *)
Definition raw_1000 : WorldView3PixelType := mkPixel (fun _ => 1000) true.
Definition raw_1000_invalid : WorldView3PixelType := mkPixel (fun _ => 1000) false.

(** Reflectance pixels given by their BLUE and NIR1 values, the other
    bands being zero. *)
Definition blue_nir1 (blue nir1 : float) : WorldView3ToaPixelType :=
  mkPixel (vset (vset (fun _ => fzero) BLUE blue) NIR1 nir1) true.

(** BLUE = 11/16 and NIR1 = 9/16, both exact in binary32; the index is
    (11 - 9) / (11 + 9) = 1/10. *)
Definition ndwi_tenth : WorldView3ToaPixelType :=
  blue_nir1 (fdiv (float_of_Z 11) (float_of_Z 16)) (fdiv (float_of_Z 9) (float_of_Z 16)).

(** BLUE = 23/32 and NIR1 = 17/32; the index is 6/40 = 0.15. *)
Definition ndwi_015 : WorldView3ToaPixelType :=
  blue_nir1 (fdiv (float_of_Z 23) (float_of_Z 32)) (fdiv (float_of_Z 17) (float_of_Z 32)).

Definition all_zero : WorldView3ToaPixelType := mkPixel (fun _ => fzero) true.

(** A metadata file in the layout of the sensor's .IMD files. *)
Definition band_group (name : string) : list string :=
  [ "BEGIN_GROUP = " ++ name
  ; "  ULLon = -95.14;"
  ; "  absCalFactor = 9.295654e-03;"
  ; "  effectiveBandwidth = 4.730000e-02;"
  ; "  TDILevel = 24;"
  ; "END_GROUP = " ++ name ].

Definition first_line_time : string :=
  "  firstLineTime = 2016-10-23T17:46:54.796950Z;".

Definition image_group : list string :=
  [ "BEGIN_GROUP = IMAGE_1"
  ; "  satId = WV03;"
  ; first_line_time
  ; "  meanSunEl = 40.1;"
  ; "END_GROUP = IMAGE_1" ].

Definition imd_file : list string :=
  ([ "bandId = Multi;" ] ++ List.concat (map band_group recognized_band_names)
     ++ image_group ++ [ "END;" ])%list.

(** A panchromatic band group, whose name is not one of the eight. *)
Definition pan_group : list string := band_group "BAND_P".

(** The same file with every BEGIN_GROUP line taken out: its eighteen key
    lines are still there. *)
Definition ungrouped_file : list string :=
  filter (fun l => negb (found l "BEGIN_GROUP")) imd_file.

(** A line that holds an absCalFactor entry and, after it, the start of a
    group. *)
Definition key_on_group_line : string :=
  "absCalFactor = 9.295654e-03; BEGIN_GROUP = BAND_C".

Definition key_line : string := "  absCalFactor = 9.295654e-03;".

End Sample.

(** ** Vocabulary of the further properties *)

(** A zero or a finite non-zero number. *)
Definition is_finite (x : spec_float) : bool :=
  match x with
  | S754_zero _ | S754_finite _ _ _ => true
  | _ => false
  end.

(** The integer a floating-point number stands for, when it is one. *)
Definition float_to_Z (x : spec_float) : option Z :=
  match x with
  | S754_zero _ => Some 0
  | S754_finite s m e =>
      let magnitude :=
        if e <? 0 then
          if Z.pos m mod 2 ^ (- e) =? 0 then Some (Z.pos m / 2 ^ (- e)) else None
        else Some (Z.pos m * 2 ^ e) in
      option_map (fun z => if s then - z else z) magnitude
  | _ => None
  end.

(** Two runs end the same way: both return, or both throw the same
    exception. *)
Definition same_outcome {A B} (r1 : result A) (r2 : result B) : Prop :=
  match r1, r2 with
  | Ok _, Ok _ => True
  | Throw e1, Throw e2 => e1 = e2
  | _, _ => False
  end.

(** The group name of each band, in the order of the enumeration. *)
Definition band_name (b : WORLDVIEW3_CHANNEL_INDICES) : string :=
  match b with
  | COASTAL => "BAND_C"
  | BLUE => "BAND_B"
  | GREEN => "BAND_G"
  | YELLOW => "BAND_Y"
  | RED => "BAND_R"
  | RED_EDGE => "BAND_RE"
  | NIR1 => "BAND_N"
  | NIR2 => "BAND_N2"
  end.

Fixpoint last_char (s : string) : option ascii :=
  match s with
  | EmptyString => None
  | String c EmptyString => Some c
  | String _ s' => last_char s'
  end.

(** The characters the eight band names end with. *)
Definition band_name_endings : list ascii :=
  [ "C"; "B"; "G"; "Y"; "R"; "E"; "N"; "2" ]%char.

(** The first [=] of the line is its last character. *)
Definition ends_at_first_eq (line : string) : bool :=
  match find_first line "=" with
  | Some p => (S p =? String.length line)%nat
  | None => false
  end.

Fixpoint all_digits (s : string) : bool :=
  match s with
  | EmptyString => true
  | String c s' => isdigit c && all_digits s'
  end.

(** The number a run of decimal digits spells. *)
Definition digit_value (c : ascii) : Z := Z.of_nat (nat_of_ascii c) - 48.

Fixpoint decimal_from (acc : Z) (s : string) : Z :=
  match s with
  | EmptyString => acc
  | String c s' => decimal_from (10 * acc + digit_value c) s'
  end.

Definition decimal (s : string) : Z := decimal_from 0 s.

(** A timestamp that starts with the year: four, two, two, two and two
    characters for year, month, day, hour and minute, one character of any
    kind after each, then the seconds and whatever follows. *)
Definition timestamp_text (year month day hour minute : string)
           (s1 s2 s3 s4 s5 : ascii) (rest : string) : string :=
  (year ++ String s1 (month ++ String s2 (day ++ String s3
     (hour ++ String s4 (minute ++ String s5 rest)))))%string.

(** A line the loop takes as a meanSunEl line. *)
Definition is_sun_elevation_line (line : string) : bool :=
  negb (found line "BEGIN_GROUP") && negb (found line "absCalFactor")
  && negb (found line "effectiveBandwidth") && found line "meanSunEl".

(** A line the loop takes as a firstLineTime line. *)
Definition is_first_line_time_line (line : string) : bool :=
  negb (found line "BEGIN_GROUP") && negb (found line "absCalFactor")
  && negb (found line "effectiveBandwidth") && negb (found line "meanSunEl")
  && found line "firstLineTime".

(** A metadata file as a preamble followed by groups, each a BEGIN_GROUP
    line with the lines up to the next BEGIN_GROUP line. *)
Definition group : Type := string * list string.

Definition file_of (preamble : list string) (groups : list group) : list string :=
  preamble ++ List.concat (map (fun g : group => fst g :: snd g) groups).

Definition no_band_key (line : string) : bool :=
  negb (found line "absCalFactor") && negb (found line "effectiveBandwidth").

Definition not_group_line (line : string) : bool := negb (found line "BEGIN_GROUP").

(** The header is a BEGIN_GROUP line whose name can be taken, no line of the
    body is one, and the body holds band keys only when the header opens one
    of the eight bands. *)
Definition well_formed_group (g : group) : bool :=
  found (fst g) "BEGIN_GROUP"
  && succeeds (group_name (fst g))
  && forallb not_group_line (snd g)
  && (opens_band (fst g) || forallb no_band_key (snd g)).

Definition well_formed_file (preamble : list string) (groups : list group) : bool :=
  forallb not_group_line preamble && forallb no_band_key preamble
  && forallb well_formed_group groups.

(** ** Further concrete inputs *)

Module Cases.

Local Open Scope string_scope.

Definition cr : string := String (ascii_of_nat 13) EmptyString.

(** A group line of a file with CR LF line ends, as [getline] yields it. *)
Definition crlf_group_line : string := "BEGIN_GROUP = BAND_C" ++ cr.

Definition group_line_no_eq : string := "BEGIN_GROUP BAND_C".
Definition time_line_no_eq : string := "firstLineTime 2016-10-23T17:46:54.796950Z;".
Definition group_line_ending_in_eq : string := "BEGIN_GROUP =".
Definition sun_line : string := "  meanSunEl = 40.1;".

(** The same value, 3/8, in RED and NIR2, in BLUE and NIR1 and in COASTAL. *)
Definition equal_bands : WorldView3ToaPixelType :=
  mkPixel (fun _ => fdiv (float_of_Z 3) (float_of_Z 8)) true.

(** A NaN in BLUE, one half elsewhere. *)
Definition nan_blue : WorldView3ToaPixelType :=
  mkPixel (vset (fun _ => fdiv (float_of_Z 1) (float_of_Z 2)) BLUE S754_nan) true.

(** The lines of a band group after its BEGIN_GROUP line. *)
Definition group_body : list string := tl (Sample.band_group "BAND_G").

Definition inside_green : scan_state := mkState 2 4 Sample.empty_metadata.

(** The sample file, cut at its BEGIN_GROUP lines. *)
Definition band_groups : list group :=
  map (fun name => ("BEGIN_GROUP = " ++ name, tl (Sample.band_group name)))
      recognized_band_names.

Definition last_group : group :=
  (hd "" Sample.image_group, (tl Sample.image_group ++ [ "END;" ])%list).

Definition imd_groups : list group := (band_groups ++ [ last_group ])%list.

Definition short_time_metadata : WorldViewMetadataContainer :=
  mkMetadata (fun _ => fone) (fun _ => fone) fone fzero "2016-10-23T17:46".

End Cases.

Section Multispectral.

(** What the header takes from elsewhere: [cos] and [atof] of the C
    library, and [DEG_TO_RAD], [parse_metadata_line],
    [compute_earth_sun_distance] and [find_string_in_list] of
    vw/tools/flood_common.h, which is not among the sources.  The
    metadata file is reached through [file_lines], the lines [getline]
    yields for a path (none when the file cannot be opened). *)
Variable cos : double -> double.
Variable DEG_TO_RAD : double.
Variable atof : string -> double.
Variable parse_metadata_line : string -> float.
Variable compute_earth_sun_distance : Z -> Z -> Z -> Z -> Z -> float -> float.
Variable find_string_in_list : list string -> string -> string.
Variable file_lines : string -> list string.

(** *** [WorldViewMetadataContainer::populate_derived_values] *)

Definition populate_derived_values (md : WorldViewMetadataContainer)
  : result WorldViewMetadataContainer :=
  y <- substr (datetime md) 0 4 ;;
  let year := atoi y in
  m <- substr (datetime md) 5 2 ;;
  let month := atoi m in
  d <- substr (datetime md) 8 2 ;;
  let day := atoi d in
  h <- substr (datetime md) 11 2 ;;
  let hour := atoi h in
  mi <- substr (datetime md) 14 2 ;;
  let minute := atoi mi in
  s <- substr (datetime md) 17 8 ;;
  let second := to_float (atof s) in
  Ok (set_earth_sun_distance md
        (compute_earth_sun_distance year month day hour minute second)).

(** *** [load_worldview3_metadata] *)

(** One turn of the [while (std::getline(handle, line))] loop. *)
Definition scan_line (st : scan_state) (line : string) : result scan_state :=
  if found line "BEGIN_GROUP" then
    name <- group_name line ;;
    Ok (mkState (band_of_group name) (found_count st) (metadata st))
  else if found line "absCalFactor" then
    if channel_index st <? 0 then Throw (ArgumentErr msg_absCalFactor)
    else Ok (mkState (channel_index st) (found_count st + 1)
               (set_abs_cal_factor (metadata st) (channel_index st)
                  (parse_metadata_line line)))
  else if found line "effectiveBandwidth" then
    if channel_index st <? 0 then Throw (ArgumentErr msg_effectiveBandwidth)
    else Ok (mkState (channel_index st) (found_count st + 1)
               (set_effective_bandwidth (metadata st) (channel_index st)
                  (parse_metadata_line line)))
  else if found line "meanSunEl" then
    Ok (mkState (channel_index st) (found_count st + 1)
          (set_mean_sun_elevation (metadata st) (parse_metadata_line line)))
  else if found line "firstLineTime" then
    let eqpos := find line "=" in
    dt <- substr_from line (size_t_add eqpos 1) ;;
    Ok (mkState (channel_index st) (found_count st + 1)
          (set_datetime (metadata st) dt))
  else Ok st.

(** The loop over the stream; an exception leaves it. *)
Fixpoint scan (lines : list string) (st : scan_state) : result scan_state :=
  match lines with
  | [] => Ok st
  | line :: rest => st' <- scan_line st line ;; scan rest st'
  end.

Definition initial_state (md : WorldViewMetadataContainer) : scan_state :=
  mkState (-1) 0 md.

(** The count test after the loop. *)
Definition check_complete (st : scan_state) : result WorldViewMetadataContainer :=
  if negb (found_count st =? 2 * NUM_WORLDVIEW_BANDS + 2)
  then Throw (ArgumentErr msg_incomplete)
  else Ok (metadata st).

(** Everything after the file has been located: the loop, the count test
    and the derive step, on the lines of the stream and the container
    passed by reference. *)
Definition load_from_lines (lines : list string) (md : WorldViewMetadataContainer)
  : result WorldViewMetadataContainer :=
  st <- scan lines (initial_state md) ;;
  md' <- check_complete st ;;
  populate_derived_values md'.

Definition load_worldview3_metadata (input_paths : list string)
           (md : WorldViewMetadataContainer) : result WorldViewMetadataContainer :=
  let metadata_path := find_string_in_list input_paths ".IMD" in
  if (metadata_path =? "")%string then Throw (ArgumentErr msg_not_found)
  else load_from_lines (file_lines metadata_path) md.

(** *** [convert_to_toa] *)

(** The first loop: counts to radiance. *)
Definition to_radiance (rad_pixel : WorldView3ToaPixelType)
           (md : WorldViewMetadataContainer) : WorldView3ToaPixelType :=
  for_each_band
    (fun i rad_pixel =>
       set_channel rad_pixel i
           (fmul (channel rad_pixel i)
                 (fdiv (abs_cal_factor md i) (effective_bandwidth md i))))
    rad_pixel.

(** The local [scale_factor]: the product and the quotient are evaluated
    in [double] ([M_PI] and the result of [cos] are doubles) and the
    result is stored in a [float]. *)
Definition scale_factor (md : WorldViewMetadataContainer) : float :=
  to_float
    (ddiv (dmul (to_double (fmul (earth_sun_distance md) (earth_sun_distance md))) M_PI)
          (cos (dmul DEG_TO_RAD
                     (dsub (double_of_Z 90) (to_double (mean_sun_elevation md)))))).

(** The second loop: radiance to reflectance. *)
Definition to_reflectance (rad_pixel : WorldView3ToaPixelType)
           (scale_factor : float) : WorldView3ToaPixelType :=
  let pixel := rad_pixel in
  for_each_band
    (fun i pixel =>
       set_channel pixel i
           (fdiv (fmul (channel rad_pixel i) scale_factor) (WORLDVIEW_ESUN i)))
    pixel.

Definition convert_to_toa (pixel_in : WorldView3PixelType)
           (md : WorldViewMetadataContainer) : WorldView3ToaPixelType :=
  let rad_pixel := to_radiance (pixel_cast pixel_in) md in
  to_reflectance rad_pixel (scale_factor md).

(** What the driver applies to every pixel: [WorldView3ToaFunctor], then
    the classifier. *)
Definition classify (md : WorldViewMetadataContainer)
           (pixel : WorldView3PixelType) : flood_label :=
  DetectWaterWorldView3Functor (convert_to_toa pixel md).


(** ** Facts of binary32 arithmetic *)

Lemma div_eucl_exact (q m : positive) :
  Z.div_eucl (Z.pos q * Z.pos m) (Z.pos m) = (Z.pos q, 0).
Proof.
  generalize (Z.div_eucl_eq (Z.pos q * Z.pos m) (Z.pos m)).
  generalize (Z.mod_pos_bound (Z.pos q * Z.pos m) (Z.pos m)).
  unfold Z.modulo.
  destruct (Z.div_eucl (Z.pos q * Z.pos m) (Z.pos m)) as [a r].
  intros Hr Heq.
  specialize (Hr ltac:(lia)). specialize (Heq ltac:(lia)).
  assert (a = Z.pos q) by nia.
  subst a. f_equal. lia.
Qed.

(** A finite number divided by itself is one. *)
Lemma fdiv_same (s : bool) (m : positive) (e : Z) :
  fdiv (S754_finite s m e) (S754_finite s m e) = fone.
Proof.
  unfold fdiv, SFdiv, SFdiv_core_binary.
  replace (Zdigits2 (Z.pos m) + e - (Zdigits2 (Z.pos m) + e)) with 0 by lia.
  replace (e - e) with 0 by lia.
  change (Z.min (fexp fprec femax 0) 0) with (-24).
  change (0 - -24) with 24.
  cbv iota beta.
  rewrite Z.shiftl_mul_pow2 by lia.
  change (2 ^ 24) with (Z.pos 16777216).
  rewrite (Z.mul_comm (Z.pos m)), div_eucl_exact.
  replace (new_location (Z.pos m) 0) with loc_Exact
    by (unfold new_location; destruct (Z.even (Z.pos m)); reflexivity).
  destruct s; reflexivity.
Qed.

(** [==] on a finite left operand holds for the same number only. *)
Lemma feq_finite (x y : spec_float) :
  is_finite_nonzero x = true -> feq x y = true -> y = x.
Proof.
  destruct x as [sx|sx| |sx mx ex]; try discriminate. intros _.
  unfold feq, SFeqb, SFcompare.
  destruct y as [sy|sy| |sy my ey]; try discriminate;
    try (destruct sx; discriminate); try (destruct sy; discriminate).
  change (Pos.compare_cont Eq mx my) with (Pos.compare mx my).
  destruct sx, sy; try discriminate;
    destruct (Z.compare_spec ex ey); try discriminate;
    destruct (Pos.compare_spec mx my); simpl; try discriminate;
    intros _; subst; reflexivity.
Qed.

Lemma feq_finite_r (x y : spec_float) :
  is_finite_nonzero y = true -> feq x y = true -> x = y.
Proof.
  destruct y as [sy|sy| |sy my ey]; try discriminate. intros _.
  unfold feq, SFeqb, SFcompare.
  destruct x as [sx|sx| |sx mx ex]; try discriminate;
    try (destruct sx; discriminate); try (destruct sy; discriminate).
  change (Pos.compare_cont Eq mx my) with (Pos.compare mx my).
  destruct sx, sy; try discriminate;
    destruct (Z.compare_spec ex ey); try discriminate;
    destruct (Pos.compare_spec mx my); simpl; try discriminate;
    intros _; subst; reflexivity.
Qed.

Lemma same_eq (x y : spec_float) : same x y = true -> x = y.
Proof.
  destruct x as [a|a| |a m e], y as [b|b| |b m' e']; simpl; try discriminate;
    try reflexivity.
  - intros H. apply Bool.eqb_prop in H. now subst.
  - intros H. apply Bool.eqb_prop in H. now subst.
  - intros H. apply andb_prop in H as [H He]. apply andb_prop in H as [Hs Hm].
    apply Bool.eqb_prop in Hs. apply Pos.eqb_eq in Hm. apply Z.eqb_eq in He.
    now subst.
Qed.

Lemma all_suffixes_spec (P : Z -> bool) (k : nat) :
  forall z, all_suffixes k z P = true ->
  forall n, z * 2 ^ Z.of_nat k <= n < (z + 1) * 2 ^ Z.of_nat k -> P n = true.
Proof.
  induction k as [|k IH]; intros z H n Hn.
  - simpl in H. change (2 ^ Z.of_nat 0) with 1 in Hn.
    replace n with z by lia. exact H.
  - cbn [all_suffixes] in H. apply andb_prop in H as [H0 H1].
    rewrite Nat2Z.inj_succ, Z.pow_succ_r in Hn by lia.
    set (p := 2 ^ Z.of_nat k) in *.
    destruct (Z_lt_le_dec n ((2 * z + 1) * p)) as [Hlt|Hge].
    + apply (IH _ H0). nia.
    + apply (IH _ H1). nia.
Qed.

(** Multiplying a converted [uint16] count by one leaves it as it is;
    checked on each of the 65536 counts. *)
Lemma fmul_one_all_counts :
  all_suffixes 16 0 (fun n => same (fmul (float_of_Z n) fone) (float_of_Z n)) = true.
Proof. vm_compute. reflexivity. Qed.

Lemma fmul_one_count (n : Z) :
  0 <= n < 65536 -> fmul (float_of_Z n) fone = float_of_Z n.
Proof.
  intros Hn. apply same_eq.
  apply (all_suffixes_spec _ 16 0 fmul_one_all_counts).
  change (2 ^ Z.of_nat 16) with 65536. lia.
Qed.

(** The sum of two zeros, of either sign, is a zero. *)
Lemma fadd_zeros (a b : float) :
  feq a fzero = true -> feq b fzero = true -> feq (fadd a b) fzero = true.
Proof.
  destruct a as [sa|sa| |sa ma ea]; try discriminate;
    try (destruct sa; discriminate).
  destruct b as [sb|sb| |sb mb eb]; try discriminate;
    try (destruct sb; discriminate).
  destruct sa, sb; reflexivity.
Qed.

(** ** The conversion to reflectance *)

Lemma convert_to_toa_stages (pixel_in : WorldView3PixelType)
      (md : WorldViewMetadataContainer) :
  convert_to_toa pixel_in md
  = to_reflectance (to_radiance (pixel_cast pixel_in) md) (scale_factor md).
Proof. reflexivity. Qed.

(** The conversion keeps the validity flag of its input. *)
Lemma convert_to_toa_valid (pixel_in : WorldView3PixelType)
      (md : WorldViewMetadataContainer) :
  is_valid (convert_to_toa pixel_in md) = is_valid pixel_in.
Proof. reflexivity. Qed.

Lemma to_radiance_channel (p : WorldView3ToaPixelType)
      (md : WorldViewMetadataContainer) (b : WORLDVIEW3_CHANNEL_INDICES) :
  channel (to_radiance p md) b
  = fmul (channel p b) (fdiv (abs_cal_factor md b) (effective_bandwidth md b)).
Proof. destruct b; reflexivity. Qed.

Lemma to_reflectance_channel (p : WorldView3ToaPixelType) (scale : float)
      (b : WORLDVIEW3_CHANNEL_INDICES) :
  channel (to_reflectance p scale) b
  = fdiv (fmul (channel p b) scale) (WORLDVIEW_ESUN b).
Proof. destruct b; reflexivity. Qed.

(** C1: for every raw pixel, every metadata record and each of the eight
    bands, the reflectance [convert_to_toa] returns is the raw count times
    gain over bandwidth, times the scale factor
    [earth_sun_distance^2 * pi / cos (DEG_TO_RAD * (90 - mean_sun_elevation))],
    divided by the band's entry of the constant table [WORLDVIEW_ESUN],
    whose eight entries are the literals of the source. *)
Theorem convert_to_toa_formula (pixel_in : WorldView3PixelType)
        (md : WorldViewMetadataContainer) (b : WORLDVIEW3_CHANNEL_INDICES) :
  channel (convert_to_toa pixel_in md) b
  = fdiv
      (fmul
         (fmul (float_of_Z (channel pixel_in b))
               (fdiv (abs_cal_factor md b) (effective_bandwidth md b)))
         (to_float
            (ddiv
               (dmul (to_double (fmul (earth_sun_distance md) (earth_sun_distance md)))
                     M_PI)
               (cos (dmul DEG_TO_RAD
                          (dsub (double_of_Z 90)
                                (to_double (mean_sun_elevation md))))))))
      (WORLDVIEW_ESUN b)
  /\ WORLDVIEW_ESUN b
     = match b with
       | COASTAL => flit 17582229 10000
       | BLUE => flit 19742416 10000
       | GREEN => flit 18564104 10000
       | YELLOW => flit 17384791 10000
       | RED => flit 15594555 10000
       | RED_EDGE => flit 13420695 10000
       | NIR1 => flit 10697302 10000
       | NIR2 => flit 8612866 10000
       end.
Proof.
  rewrite convert_to_toa_stages, to_reflectance_channel, to_radiance_channel.
  split; [reflexivity | destruct b; reflexivity].
Qed.

(** C2: a raw pixel whose validity flag is off is classified NODATA by the
    conversion followed by the classifier, whatever its channel values and
    the metadata are; it is labelled neither WATER nor LAND. *)
Theorem invalid_pixel_is_nodata (pixel_in : WorldView3PixelType)
        (md : WorldViewMetadataContainer) :
  is_valid pixel_in = false ->
  classify md pixel_in = FLOOD_DETECT_NODATA
  /\ classify md pixel_in <> FLOOD_DETECT_WATER
  /\ classify md pixel_in <> FLOOD_DETECT_LAND.
Proof.
  intros Hinv. unfold classify, DetectWaterWorldView3Functor.
  rewrite convert_to_toa_valid, Hinv.
  repeat split; discriminate.
Qed.

(** C4, as amended: with gain and bandwidth of a band equal, finite and
    not zero, and a scale factor equal to one, the radiance of the band is
    the raw count and its reflectance is the raw count divided by the
    band's solar irradiance. *)
Theorem gain_identity (pixel_in : WorldView3PixelType)
        (md : WorldViewMetadataContainer) (scale : float)
        (b : WORLDVIEW3_CHANNEL_INDICES) :
  0 <= channel pixel_in b < 65536 ->
  is_finite_nonzero (abs_cal_factor md b) = true ->
  feq (abs_cal_factor md b) (effective_bandwidth md b) = true ->
  feq scale fone = true ->
  channel (to_radiance (pixel_cast pixel_in) md) b = float_of_Z (channel pixel_in b)
  /\ channel (to_reflectance (to_radiance (pixel_cast pixel_in) md) scale) b
     = fdiv (float_of_Z (channel pixel_in b)) (WORLDVIEW_ESUN b)
  /\ (scale_factor md = scale ->
      channel (convert_to_toa pixel_in md) b
      = fdiv (float_of_Z (channel pixel_in b)) (WORLDVIEW_ESUN b)).
Proof.
  intros Hraw Hfin Heq Hscale.
  apply feq_finite in Heq; [|exact Hfin].
  apply feq_finite_r in Hscale; [|reflexivity].
  assert (Hrad : channel (to_radiance (pixel_cast pixel_in) md) b
                 = float_of_Z (channel pixel_in b)).
  { rewrite to_radiance_channel, Heq.
    destruct (abs_cal_factor md b) as [| | |s m e]; try discriminate.
    rewrite fdiv_same. apply fmul_one_count. exact Hraw. }
  assert (Hrefl : channel (to_reflectance (to_radiance (pixel_cast pixel_in) md) scale) b
                  = fdiv (float_of_Z (channel pixel_in b)) (WORLDVIEW_ESUN b)).
  { rewrite to_reflectance_channel, Hrad, Hscale.
    rewrite fmul_one_count by exact Hraw. reflexivity. }
  repeat split; [exact Hrad | exact Hrefl |].
  intros Hs. rewrite convert_to_toa_stages, Hs. exact Hrefl.
Qed.

(** ** The spectral indices and the classifier *)

(** C9: each of the three index functions returns exactly 0, which is
    neither a NaN nor an infinity, when the sum of its two contributing
    bands is zero, and in particular when both bands are zero; the
    functions are total, nothing is raised. *)
Theorem index_zero_denominator (k : index_kind) (pixel : WorldView3ToaPixelType) :
  feq (fadd (channel pixel (fst (contributing_bands k)))
            (channel pixel (snd (contributing_bands k)))) fzero = true
  \/ (feq (channel pixel (fst (contributing_bands k))) fzero = true
      /\ feq (channel pixel (snd (contributing_bands k))) fzero = true) ->
  spectral_index k pixel = fzero
  /\ is_nan (spectral_index k pixel) = false
  /\ is_inf (spectral_index k pixel) = false.
Proof.
  intros H.
  assert (Hden : feq (fadd (channel pixel (fst (contributing_bands k)))
                           (channel pixel (snd (contributing_bands k)))) fzero = true).
  { destruct H as [H|[Ha Hb]]; [exact H | now apply fadd_zeros]. }
  assert (Hres : spectral_index k pixel = fzero).
  { destruct k; cbn [contributing_bands fst snd spectral_index] in *;
      unfold compute_ndvi, compute_ndwi, compute_ndwi2; cbv zeta;
      change (float_of_Z 0) with fzero; rewrite Hden; reflexivity. }
  rewrite Hres. repeat split; reflexivity.
Qed.

(** On a valid pixel the label is WATER when the index, widened to
    [double], is above the literal 0.1, and LAND otherwise. *)
Lemma classifier_rule (pixel : WorldView3ToaPixelType) :
  is_valid pixel = true ->
  DetectWaterWorldView3Functor pixel
  = if fgt (to_double (compute_ndwi pixel)) (dlit 1 10)
    then FLOOD_DETECT_WATER else FLOOD_DETECT_LAND.
Proof. intros Hv. unfold DetectWaterWorldView3Functor. now rewrite Hv. Qed.

(** C6: the classifier evaluated at a valid pixel whose index is exactly
    one tenth (BLUE = 11/16, NIR1 = 9/16).  The quotient computed in
    [float] is the binary32 number nearest to 0.1; widened to [double] it
    lies above the [double] literal 0.1, and the pixel is labelled WATER.
    A valid pixel with index 0.15 is labelled WATER as well. *)
Theorem ndwi_tenth_is_water :
  is_valid Sample.ndwi_tenth = true
  /\ compute_ndwi Sample.ndwi_tenth = fdiv (float_of_Z 1) (float_of_Z 10)
  /\ fgt (to_double (fdiv (float_of_Z 1) (float_of_Z 10))) (dlit 1 10) = true
  /\ DetectWaterWorldView3Functor Sample.ndwi_tenth = FLOOD_DETECT_WATER
  /\ DetectWaterWorldView3Functor Sample.ndwi_015 = FLOOD_DETECT_WATER.
Proof. vm_compute. repeat split; reflexivity. Qed.

(** ** Strings *)

Lemma prefix_length (a b : string) :
  prefix a b = true -> (String.length a <= String.length b)%nat.
Proof.
  revert b. induction a as [|c a IH]; intros b H; simpl; [lia|].
  destruct b as [|d b]; simpl in H; [discriminate|].
  revert H. destruct (ascii_dec c d); intros H; [|discriminate H].
  apply IH in H. simpl. lia.
Qed.

Lemma find_first_bound (pat s : string) (p : nat) :
  find_first s pat = Some p ->
  (p + String.length pat <= String.length s)%nat.
Proof.
  revert p. induction s as [|c s IH]; intros p; cbn [find_first].
  - destruct (prefix pat "") eqn:Hp; [|discriminate].
    intros [= <-]. apply prefix_length in Hp. simpl in *. lia.
  - destruct (prefix pat (String c s)) eqn:Hp.
    + intros [= <-]. apply prefix_length in Hp. simpl in *. lia.
    + destruct (find_first s pat) as [q|]; simpl; [|discriminate].
      intros [= <-]. specialize (IH q eq_refl). lia.
Qed.

(** The text after the first [=] of a line can always be taken: the start
    position [line.find("=") + 1] never lies beyond the end. *)
Lemma substr_after_eq (line : string) :
  exists dt, substr_from line (size_t_add (find line "=") 1) = Ok dt.
Proof.
  unfold substr_from, find.
  destruct (find_first line "=") as [p|] eqn:Hf.
  - apply find_first_bound in Hf. simpl in Hf.
    assert (Hle : size_t_add (Z.of_nat p) 1 <= size line).
    { unfold size_t_add, size.
      pose proof (Z.mod_le (Z.of_nat p + 1) (2 ^ 64) ltac:(lia) ltac:(lia)). lia. }
    apply Z.ltb_ge in Hle. rewrite Hle. eauto.
  - change (size_t_add npos 1) with 0.
    assert (Hle : 0 <= size line) by (unfold size; lia).
    apply Z.ltb_ge in Hle. rewrite Hle. eauto.
Qed.

Lemma band_of_group_unknown (name : string) :
  ~ In name recognized_band_names -> band_of_group name = -1.
Proof.
  intros Hn. unfold band_of_group.
  repeat match goal with
         | |- context [String.eqb name ?b] =>
             destruct (String.eqb_spec name b) as [->|_];
             [exfalso; apply Hn; simpl;
              repeat (first [left; reflexivity | right])|]
         end.
  reflexivity.
Qed.

Lemma digits_no_digit (s : string) :
  match s with String d _ => isdigit d | EmptyString => false end = false ->
  digits 0 s = 0.
Proof. destruct s as [|d s]; simpl; [reflexivity|]. now intros ->. Qed.

(** [atoi] of a text that does not start a number is 0. *)
Lemma atoi_default (s : string) : starts_number s = false -> atoi s = 0.
Proof.
  unfold starts_number, atoi.
  destruct (skip_spaces s) as [|c s']; [reflexivity|].
  destruct (isdigit c) eqn:Hd; [discriminate|].
  destruct (c =? "-")%char eqn:Hm; simpl.
  - intros H. rewrite (digits_no_digit _ H). reflexivity.
  - destruct (c =? "+")%char eqn:Hp; simpl.
    + intros H. apply (digits_no_digit _ H).
    + intros _. rewrite Hd. reflexivity.
Qed.

(** ** The reader's loop *)

Lemma scan_app (pre post : list string) (st : scan_state) :
  scan (pre ++ post) st = st' <- scan pre st ;; scan post st'.
Proof.
  revert st. induction pre as [|l pre IH]; intros st; simpl; [reflexivity|].
  destruct (scan_line st l); simpl; [apply IH | reflexivity].
Qed.

Ltac split_line :=
  repeat match goal with
         | |- context [found ?l ?k] => destruct (found l k) eqn:?
         | |- context [bind ?r _] => destruct r; cbn [bind]
         | |- context [if ?c then _ else _] => destruct c eqn:?
         end.

(** Once the list of paths holds a metadata file, the reader works on the
    lines of that file. *)
Lemma load_worldview3_metadata_found (input_paths : list string)
      (md : WorldViewMetadataContainer) :
  (find_string_in_list input_paths ".IMD" =? "")%string = false ->
  load_worldview3_metadata input_paths md
  = load_from_lines (file_lines (find_string_in_list input_paths ".IMD")) md.
Proof. intros H. unfold load_worldview3_metadata. now rewrite H. Qed.

(** A turn of the loop keeps or raises the count according to the line
    alone, and only a [BEGIN_GROUP] line changes the band index. *)
Lemma scan_line_effect (st st' : scan_state) (l : string) :
  scan_line st l = Ok st' ->
  found_count st' = found_count st + (if is_field_line l then 1 else 0)
  /\ (found l "BEGIN_GROUP" = false -> channel_index st' = channel_index st).
Proof.
  unfold scan_line, is_field_line. split_line;
    intros [= <-]; cbn; split; try lia; try discriminate; reflexivity.
Qed.

(** Whether a turn of the loop throws, and the band index it leaves,
    depend on the line and the band index only. *)
Lemma scan_line_sim (st1 st2 r1 : scan_state) (l : string) :
  channel_index st1 = channel_index st2 ->
  scan_line st1 l = Ok r1 ->
  exists r2, scan_line st2 l = Ok r2
             /\ channel_index r2 = channel_index r1
             /\ found_count r2 - found_count st2 = found_count r1 - found_count st1.
Proof.
  intros Hci. unfold scan_line. rewrite <- Hci. split_line;
    intros [= <-]; eexists; (split; [reflexivity|]); cbn; lia.
Qed.

Lemma scan_sim (lines : list string) :
  forall st1 st2 r1,
    channel_index st1 = channel_index st2 ->
    scan lines st1 = Ok r1 ->
    exists r2, scan lines st2 = Ok r2
               /\ found_count r2 - found_count st2 = found_count r1 - found_count st1.
Proof.
  induction lines as [|l lines IH]; intros st1 st2 r1 Hci; simpl.
  - intros [= <-]. exists st2. split; [reflexivity | lia].
  - destruct (scan_line st1 l) as [s1|] eqn:H1; [|discriminate]. simpl.
    intros Hrest.
    destruct (scan_line_sim _ st2 _ _ Hci H1) as (s2 & H2 & Hci' & Hcnt).
    rewrite H2. simpl.
    destruct (IH s1 s2 r1 (eq_sym Hci') Hrest) as (r2 & Hr2 & Hd).
    exists r2. split; [exact Hr2 | lia].
Qed.

Lemma field_hits_cons (l : string) (lines : list string) :
  field_hits (l :: lines) = (if is_field_line l then 1 else 0) + field_hits lines.
Proof.
  unfold field_hits. cbn [filter].
  destruct (is_field_line l); cbn [List.length]; lia.
Qed.

Lemma field_hits_app (pre post : list string) :
  field_hits (pre ++ post) = field_hits pre + field_hits post.
Proof.
  induction pre as [|l pre IH]; [reflexivity|].
  rewrite <- app_comm_cons, !field_hits_cons, IH. lia.
Qed.

(** When the loop reaches the end of the stream, the count is the number
    of key lines met. *)
Lemma scan_count (lines : list string) :
  forall st0 st, scan lines st0 = Ok st ->
                 found_count st = found_count st0 + field_hits lines.
Proof.
  induction lines as [|l lines IH]; intros st0 st; simpl.
  - intros [= <-]. unfold field_hits. simpl. lia.
  - destruct (scan_line st0 l) as [s1|] eqn:H1; [|discriminate]. simpl.
    intros Hrest. apply IH in Hrest. apply scan_line_effect in H1 as [H1 _].
    rewrite field_hits_cons. lia.
Qed.

(** Outside a band group, a key line of a band throws. *)
Lemma scan_line_key_throws (st : scan_state) (l : string) :
  channel_index st < 0 ->
  found l "BEGIN_GROUP" = false ->
  found l "absCalFactor" = true \/ found l "effectiveBandwidth" = true ->
  exists e, scan_line st l = Throw e /\ ParseError e.
Proof.
  intros Hci Hg Hkey. apply Z.ltb_lt in Hci.
  unfold scan_line, ParseError. rewrite Hg, Hci.
  destruct (found l "absCalFactor").
  - eexists. split; [reflexivity | now left].
  - destruct Hkey as [Hk|Hk]; [discriminate|]. rewrite Hk.
    eexists. split; [reflexivity | now right].
Qed.

(** As long as no line opens one of the eight band groups, the band index
    stays negative. *)
Lemma scan_outside_band (lines : list string) :
  forall st0 st,
    channel_index st0 < 0 ->
    forallb (fun l => negb (opens_band l)) lines = true ->
    scan lines st0 = Ok st ->
    channel_index st < 0.
Proof.
  induction lines as [|l lines IH]; intros st0 st Hci; simpl.
  - intros _ [= <-]. exact Hci.
  - intros Hall. apply andb_prop in Hall as [Hl Hall].
    destruct (scan_line st0 l) as [s1|] eqn:H1; [|discriminate]. simpl.
    apply (IH s1 st); [|exact Hall].
    destruct (found l "BEGIN_GROUP") eqn:Hg.
    + unfold opens_band in Hl. unfold scan_line in H1. rewrite Hg in Hl, H1.
      destruct (group_name l) as [name|]; [|discriminate].
      simpl in Hl, H1. injection H1 as <-. simpl.
      apply Bool.negb_true_iff, Z.leb_gt in Hl. exact Hl.
    + apply scan_line_effect in H1 as [_ H1]. rewrite (H1 Hg). exact Hci.
Qed.

(** C3, as amended: when the loop reaches the end of the stream without
    throwing, the count it holds is the number of key lines met; with a
    count other than 18 the reader fails with MetadataIncompleteError, and
    with the count 18 the test passes and the reader goes on to the derive
    step.  So removing one key line from a stream that passes the test
    makes the reader fail with MetadataIncompleteError. *)
Theorem completeness_check (lines : list string)
        (md : WorldViewMetadataContainer) (st : scan_state) :
  scan lines (initial_state md) = Ok st ->
  found_count st = field_hits lines
  /\ (found_count st <> 2 * NUM_WORLDVIEW_BANDS + 2 ->
      load_from_lines lines md = Throw MetadataIncompleteError)
  /\ (found_count st = 2 * NUM_WORLDVIEW_BANDS + 2 ->
      load_from_lines lines md = populate_derived_values (metadata st))
  /\ (forall pre l post,
        lines = pre ++ l :: post ->
        is_field_line l = true ->
        found_count st = 2 * NUM_WORLDVIEW_BANDS + 2 ->
        load_from_lines (pre ++ post) md = Throw MetadataIncompleteError).
Proof.
  intros Hscan.
  assert (Hcount : found_count st = field_hits lines).
  { apply scan_count in Hscan. simpl in Hscan. lia. }
  split; [exact Hcount|].
  split; [|split].
  - intros Hne. unfold load_from_lines, check_complete. rewrite Hscan. cbn [bind].
    apply Z.eqb_neq in Hne. rewrite Hne. reflexivity.
  - intros He. unfold load_from_lines, check_complete. rewrite Hscan. cbn [bind].
    apply Z.eqb_eq in He. rewrite He. reflexivity.
  - intros pre l post -> Hl He.
    rewrite scan_app in Hscan.
    destruct (scan pre (initial_state md)) as [s1|] eqn:Hpre; [|discriminate].
    simpl in Hscan.
    destruct (scan_line s1 l) as [s2|] eqn:Hline; [|discriminate].
    simpl in Hscan.
    pose proof (scan_line_effect _ _ _ Hline) as [Hc2 Hci2].
    rewrite Hl in Hc2.
    assert (Hg : found l "BEGIN_GROUP" = false).
    { unfold is_field_line in Hl. apply andb_prop in Hl as [Hl _].
      now apply Bool.negb_true_iff in Hl. }
    destruct (scan_sim post s2 s1 st (Hci2 Hg) Hscan) as (r & Hr & Hd).
    unfold load_from_lines. rewrite scan_app, Hpre. cbn [bind]. rewrite Hr. cbn [bind].
    unfold check_complete.
    assert (Hne : found_count r <> 2 * NUM_WORLDVIEW_BANDS + 2) by lia.
    apply Z.eqb_neq in Hne. rewrite Hne. reflexivity.
Qed.

(** C8, as amended: when the loop meets, with a negative band index (in
    particular before any line that opens one of the eight band groups), a
    line that holds the key absCalFactor or effectiveBandwidth and is not
    a BEGIN_GROUP line, the reader fails with a ParseError. *)
Theorem key_outside_band_group (pre post : list string) (l : string)
        (md : WorldViewMetadataContainer) (st : scan_state) :
  scan pre (initial_state md) = Ok st ->
  channel_index st < 0 \/ forallb (fun x => negb (opens_band x)) pre = true ->
  found l "BEGIN_GROUP" = false ->
  found l "absCalFactor" = true \/ found l "effectiveBandwidth" = true ->
  exists e, load_from_lines (pre ++ l :: post) md = Throw e /\ ParseError e.
Proof.
  intros Hpre Hout Hg Hkey.
  assert (Hci : channel_index st < 0).
  { destruct Hout as [H|H]; [exact H|].
    apply (scan_outside_band pre (initial_state md) st); [simpl; lia | exact H | exact Hpre]. }
  destruct (scan_line_key_throws st l Hci Hg Hkey) as (e & He & Hp).
  exists e. split; [|exact Hp].
  unfold load_from_lines. rewrite scan_app, Hpre. simpl. rewrite He. reflexivity.
Qed.

(** Lines that are neither BEGIN_GROUP lines nor hold a band key are read
    without an error and leave the band index as it is. *)
Lemma scan_plain_lines (mid : list string) :
  forall st,
    forallb not_group_line mid = true ->
    forallb no_band_key mid = true ->
    exists st', scan mid st = Ok st' /\ channel_index st' = channel_index st.
Proof.
  induction mid as [|l mid IH]; intros st Hg Hk; [now exists st|].
  cbn [forallb] in Hg, Hk.
  apply andb_prop in Hg as [Hl Hg]. apply andb_prop in Hk as [Hkl Hk].
  unfold not_group_line in Hl. apply Bool.negb_true_iff in Hl.
  unfold no_band_key in Hkl. apply andb_prop in Hkl as [Ha Hb].
  apply Bool.negb_true_iff in Ha, Hb.
  assert (H1 : exists s1, scan_line st l = Ok s1).
  { unfold scan_line. rewrite Hl, Ha, Hb.
    destruct (found l "meanSunEl"); [eauto|].
    destruct (found l "firstLineTime"); [|eauto].
    destruct (substr_after_eq l) as (dt & ->). cbn [bind]. eauto. }
  destruct H1 as (s1 & H1).
  pose proof (scan_line_effect _ _ _ H1) as [_ Hci]. specialize (Hci Hl).
  destruct (IH s1 Hg Hk) as (st' & Hs & Hi).
  exists st'. cbn [scan]. rewrite H1. cbn [bind].
  split; [exact Hs | congruence].
Qed.

(** C10, as amended: a BEGIN_GROUP line whose name can be taken and is not
    one of the eight band names raises nothing; it sets the band index to
    -1 and leaves the count and the metadata as they are.  A line that
    follows and holds neither BEGIN_GROUP nor a band key (absCalFactor,
    effectiveBandwidth) is processed without an error.  A line inside such
    a group that holds a band key is a ParseError: after the group line and
    any number of lines of the former kind, the reader stops on it with
    that error, whatever follows. *)
Theorem unrecognized_group_line (st : scan_state) (line name : string) :
  found line "BEGIN_GROUP" = true ->
  group_name line = Ok name ->
  ~ In name recognized_band_names ->
  scan_line st line = Ok (mkState (-1) (found_count st) (metadata st))
  /\ (forall l,
        found l "BEGIN_GROUP" = false ->
        found l "absCalFactor" = false ->
        found l "effectiveBandwidth" = false ->
        exists st', scan_line (mkState (-1) (found_count st) (metadata st)) l = Ok st'
                    /\ channel_index st' = -1)
  /\ (forall (mid post : list string) (l : string),
        forallb not_group_line mid = true ->
        forallb no_band_key mid = true ->
        found l "BEGIN_GROUP" = false ->
        found l "absCalFactor" = true \/ found l "effectiveBandwidth" = true ->
        exists e, scan (line :: mid ++ l :: post) st = Throw e /\ ParseError e).
Proof.
  intros Hg Hname Hun.
  assert (Hline : scan_line st line = Ok (mkState (-1) (found_count st) (metadata st))).
  { unfold scan_line. rewrite Hg, Hname. simpl.
    rewrite (band_of_group_unknown _ Hun). reflexivity. }
  split; [exact Hline|]. split.
  - intros l H1 H2 H3. unfold scan_line. rewrite H1, H2, H3.
    destruct (found l "meanSunEl"); [eauto|].
    destruct (found l "firstLineTime"); [|eauto].
    destruct (substr_after_eq l) as (dt & ->). simpl. eauto.
  - intros mid post l Hmg Hmk Hlg Hkey.
    destruct (scan_plain_lines mid (mkState (-1) (found_count st) (metadata st)) Hmg Hmk)
      as (s1 & Hs1 & Hci).
    cbn [channel_index] in Hci.
    destruct (scan_line_key_throws s1 l ltac:(lia) Hlg Hkey) as (e & He & Hp).
    exists e. split; [|exact Hp].
    cbn [scan]. rewrite Hline. cbn [bind].
    rewrite scan_app, Hs1. cbn [bind scan]. rewrite He. reflexivity.
Qed.

(** ** The derive step *)

(** C5: the reader and the derive step evaluated on a firstLineTime line
    of the documented form.  The text kept starts with the blank that
    follows the [=], so the six extents are taken one character early:
    year, month, day, hour and minute come out as 201, -1, -2, 0 and 0,
    and the seconds are read from [":54.7969"]. *)
Theorem first_line_time_fields (st : scan_state) (md : WorldViewMetadataContainer) :
  scan_line st Sample.first_line_time
  = Ok (mkState (channel_index st) (found_count st + 1)
          (set_datetime (metadata st) " 2016-10-23T17:46:54.796950Z;"))
  /\ populate_derived_values (set_datetime md " 2016-10-23T17:46:54.796950Z;")
     = Ok (set_earth_sun_distance
             (set_datetime md " 2016-10-23T17:46:54.796950Z;")
             (compute_earth_sun_distance 201 (-1) (-2) 0 0
                (to_float (atof ":54.7969")))).
Proof. split; reflexivity. Qed.

(** C7, as amended: on a timestamp of at least 17 characters the derive
    step never fails.  Each extent is converted as it is: [atoi] yields 0
    for an extent that does not start a number, and the distance is
    computed from the converted values. *)
Theorem derive_step_accepts (md : WorldViewMetadataContainer) :
  (17 <= String.length (datetime md))%nat ->
  populate_derived_values md
  = Ok (set_earth_sun_distance md
          (compute_earth_sun_distance
             (atoi (substring 0 4 (datetime md)))
             (atoi (substring 5 2 (datetime md)))
             (atoi (substring 8 2 (datetime md)))
             (atoi (substring 11 2 (datetime md)))
             (atoi (substring 14 2 (datetime md)))
             (to_float (atof (substring 17 8 (datetime md))))))
  /\ (forall extent, starts_number extent = false -> atoi extent = 0).
Proof.
  intros Hlen. split; [|exact atoi_default].
  unfold populate_derived_values, substr.
  repeat match goal with
         | |- context [(String.length ?s <? ?n)%nat] =>
             replace (String.length s <? n)%nat with false
               by (symmetry; apply Nat.ltb_ge; lia)
         end.
  reflexivity.
Qed.

End Multispectral.

(** ** The theorems on the concrete inputs *)

Lemma invalid_pixel_is_nodata_witness :
  is_valid Sample.raw_1000_invalid = false
  /\ classify Sample.cos Sample.DEG_TO_RAD Sample.unit_gain_metadata
       Sample.raw_1000_invalid
     = FLOOD_DETECT_NODATA.
Proof.
  split; [reflexivity|].
  apply (invalid_pixel_is_nodata Sample.cos Sample.DEG_TO_RAD
           Sample.raw_1000_invalid Sample.unit_gain_metadata).
  reflexivity.
Defined.

(** The gain identity as the spec words it fails: with gain equal to
    bandwidth and a scale factor of one, the count 1000 in the coastal band
    becomes 1000 / 1758.2229 and not 1000; and with gain and bandwidth both
    zero the result is a NaN. *)
Lemma gain_identity_counterexample :
  feq (abs_cal_factor Sample.unit_gain_metadata COASTAL)
      (effective_bandwidth Sample.unit_gain_metadata COASTAL) = true
  /\ feq fone (float_of_Z 1) = true
  /\ feq (channel (to_reflectance
                     (to_radiance (pixel_cast Sample.raw_1000) Sample.unit_gain_metadata)
                     fone) COASTAL)
         (float_of_Z (channel Sample.raw_1000 COASTAL)) = false
  /\ feq (abs_cal_factor Sample.zero_gain_metadata COASTAL)
         (effective_bandwidth Sample.zero_gain_metadata COASTAL) = true
  /\ is_nan (channel (to_reflectance
                        (to_radiance (pixel_cast Sample.raw_1000) Sample.zero_gain_metadata)
                        fone) COASTAL) = true.
Proof. vm_compute. repeat split; reflexivity. Qed.

Lemma gain_identity_witness :
  0 <= channel Sample.raw_1000 COASTAL < 65536
  /\ is_finite_nonzero (abs_cal_factor Sample.unit_gain_metadata COASTAL) = true
  /\ feq (abs_cal_factor Sample.unit_gain_metadata COASTAL)
         (effective_bandwidth Sample.unit_gain_metadata COASTAL) = true
  /\ feq fone fone = true
  /\ channel (to_reflectance
                (to_radiance (pixel_cast Sample.raw_1000) Sample.unit_gain_metadata)
                fone) COASTAL
     = fdiv (float_of_Z 1000) (flit 17582229 10000).
Proof.
  split; [simpl; lia|]. split; [reflexivity|]. split; [reflexivity|].
  split; [reflexivity|].
  apply (gain_identity Sample.cos Sample.DEG_TO_RAD Sample.raw_1000
           Sample.unit_gain_metadata fone COASTAL);
    [simpl; lia | reflexivity | reflexivity | reflexivity].
Defined.

Lemma index_zero_denominator_witness :
  feq (channel Sample.all_zero BLUE) fzero = true
  /\ feq (channel Sample.all_zero NIR1) fzero = true
  /\ compute_ndwi Sample.all_zero = fzero.
Proof.
  split; [reflexivity|]. split; [reflexivity|].
  apply (index_zero_denominator NDWI Sample.all_zero).
  right. split; reflexivity.
Defined.

(** The count test as the spec words it fails on two streams: a single key
    line outside any group has a count other than 18 and the reader fails,
    but with a ParseError; and the file without its BEGIN_GROUP lines holds
    eighteen key lines and the reader does not succeed. *)
Lemma completeness_counterexample :
  field_hits [Sample.key_line] = 1
  /\ load_from_lines Sample.atof Sample.parse_metadata_line
       Sample.compute_earth_sun_distance [Sample.key_line] Sample.empty_metadata
     = Throw (ArgumentErr msg_absCalFactor)
  /\ ArgumentErr msg_absCalFactor <> MetadataIncompleteError
  /\ field_hits Sample.ungrouped_file = 2 * NUM_WORLDVIEW_BANDS + 2
  /\ succeeds (load_from_lines Sample.atof Sample.parse_metadata_line
                 Sample.compute_earth_sun_distance Sample.ungrouped_file
                 Sample.empty_metadata) = false.
Proof.
  split; [reflexivity|]. split; [reflexivity|]. split; [discriminate|].
  split; vm_compute; reflexivity.
Qed.

Lemma completeness_check_witness :
  exists st,
    scan Sample.parse_metadata_line Sample.imd_file (initial_state Sample.empty_metadata)
    = Ok st
    /\ found_count st = 18
    /\ found_count st = field_hits Sample.imd_file
    /\ load_from_lines Sample.atof Sample.parse_metadata_line
         Sample.compute_earth_sun_distance Sample.imd_file Sample.empty_metadata
       = populate_derived_values Sample.atof Sample.compute_earth_sun_distance (metadata st).
Proof.
  eexists. split; [vm_compute; reflexivity|]. split; [reflexivity|].
  match goal with
  | |- found_count ?st = _ /\ _ =>
      destruct (completeness_check Sample.atof Sample.parse_metadata_line
                  Sample.compute_earth_sun_distance Sample.imd_file
                  Sample.empty_metadata st) as (Hc & _ & Hpass & _);
      [vm_compute; reflexivity|]
  end.
  split; [exact Hc | apply Hpass; reflexivity].
Defined.

(** A line that holds the key absCalFactor and is met with a negative band
    index need not stop the reader: when the line holds BEGIN_GROUP as well
    it is taken as a group line, nothing is thrown, and the file that
    follows it loads. *)
Lemma key_line_counterexample :
  found Sample.key_on_group_line "absCalFactor" = true
  /\ channel_index (initial_state Sample.empty_metadata) < 0
  /\ scan_line Sample.parse_metadata_line (initial_state Sample.empty_metadata)
       Sample.key_on_group_line
     = Ok (initial_state Sample.empty_metadata)
  /\ succeeds (load_from_lines Sample.atof Sample.parse_metadata_line
                 Sample.compute_earth_sun_distance
                 (Sample.key_on_group_line :: Sample.imd_file)
                 Sample.empty_metadata) = true.
Proof.
  split; [reflexivity|]. split; [simpl; lia|]. split; [reflexivity|].
  vm_compute. reflexivity.
Qed.

Lemma key_outside_band_group_witness :
  scan Sample.parse_metadata_line ["bandId = Multi;"%string]
       (initial_state Sample.empty_metadata)
  = Ok (initial_state Sample.empty_metadata)
  /\ channel_index (initial_state Sample.empty_metadata) < 0
  /\ found Sample.key_line "BEGIN_GROUP" = false
  /\ found Sample.key_line "absCalFactor" = true
  /\ exists e,
       load_from_lines Sample.atof Sample.parse_metadata_line
         Sample.compute_earth_sun_distance
         (["bandId = Multi;"%string] ++ Sample.key_line :: [])
         Sample.empty_metadata = Throw e
       /\ ParseError e.
Proof.
  split; [reflexivity|]. split; [simpl; lia|]. split; [reflexivity|].
  split; [reflexivity|].
  apply (key_outside_band_group Sample.atof Sample.parse_metadata_line
           Sample.compute_earth_sun_distance
           ["bandId = Multi;"%string] [] Sample.key_line
           Sample.empty_metadata (initial_state Sample.empty_metadata));
    [reflexivity | left; simpl; lia | reflexivity | left; reflexivity].
Defined.

(** An unrecognized group and its contents can be an error: the file loads,
    and the same file followed by a panchromatic band group, whose name is
    not one of the eight, fails on the group's absCalFactor line. *)
Lemma unrecognized_group_counterexample :
  ~ In "BAND_P"%string recognized_band_names
  /\ succeeds (load_from_lines Sample.atof Sample.parse_metadata_line
                 Sample.compute_earth_sun_distance Sample.imd_file
                 Sample.empty_metadata) = true
  /\ load_from_lines Sample.atof Sample.parse_metadata_line
       Sample.compute_earth_sun_distance (Sample.imd_file ++ Sample.pan_group)
       Sample.empty_metadata
     = Throw (ArgumentErr msg_absCalFactor).
Proof.
  split.
  - intros H. repeat (destruct H as [H|H]; [discriminate H|]). exact H.
  - split; vm_compute; reflexivity.
Qed.

Lemma unrecognized_group_line_witness :
  found "BEGIN_GROUP = BAND_P" "BEGIN_GROUP" = true
  /\ group_name "BEGIN_GROUP = BAND_P" = Ok "BAND_P"%string
  /\ ~ In "BAND_P"%string recognized_band_names
  /\ scan_line Sample.parse_metadata_line
       (mkState 3 7 Sample.empty_metadata) "BEGIN_GROUP = BAND_P"
     = Ok (mkState (-1) 7 Sample.empty_metadata)
  /\ exists e,
       scan Sample.parse_metadata_line
            ("BEGIN_GROUP = BAND_P"%string
               :: ["  ULLon = -95.14;"%string] ++ Sample.key_line :: ["END;"%string])
            (mkState 3 7 Sample.empty_metadata) = Throw e
       /\ ParseError e.
Proof.
  assert (Hun : ~ In "BAND_P"%string recognized_band_names).
  { intros H. repeat (destruct H as [H|H]; [discriminate H|]). exact H. }
  split; [reflexivity|]. split; [reflexivity|]. split; [exact Hun|].
  destruct (unrecognized_group_line Sample.parse_metadata_line
              (mkState 3 7 Sample.empty_metadata)
              "BEGIN_GROUP = BAND_P"%string "BAND_P"%string eq_refl eq_refl Hun)
    as (Hline & _ & Hkey).
  split; [exact Hline|].
  apply (Hkey ["  ULLon = -95.14;"%string] ["END;"%string] Sample.key_line);
    [reflexivity | reflexivity | reflexivity | left; reflexivity].
Defined.

(** A timestamp none of whose extents starts a number is accepted: the
    derive step succeeds, on the values 0. *)
Lemma derive_step_counterexample :
  starts_number (substring 0 4 (datetime Sample.garbage_metadata)) = false
  /\ starts_number (substring 5 2 (datetime Sample.garbage_metadata)) = false
  /\ starts_number (substring 8 2 (datetime Sample.garbage_metadata)) = false
  /\ starts_number (substring 11 2 (datetime Sample.garbage_metadata)) = false
  /\ starts_number (substring 14 2 (datetime Sample.garbage_metadata)) = false
  /\ starts_number (substring 17 8 (datetime Sample.garbage_metadata)) = false
  /\ populate_derived_values Sample.atof Sample.compute_earth_sun_distance
       Sample.garbage_metadata
     = Ok (set_earth_sun_distance Sample.garbage_metadata
             (Sample.compute_earth_sun_distance 0 0 0 0 0
                (to_float (Sample.atof "??????? ")))).
Proof. repeat split; reflexivity. Qed.

Lemma derive_step_accepts_witness :
  (17 <= String.length (datetime Sample.garbage_metadata))%nat
  /\ succeeds (populate_derived_values Sample.atof Sample.compute_earth_sun_distance
                 Sample.garbage_metadata) = true.
Proof.
  split; [simpl; lia|].
  destruct (derive_step_accepts Sample.atof Sample.compute_earth_sun_distance
              Sample.garbage_metadata) as [H _]; [simpl; lia|].
  rewrite H. reflexivity.
Defined.

(** * Further properties of the code *)

(** ** Rounding a non-negative mantissa never yields a NaN *)

Lemma shr_1_nonneg (mrs : shr_record) :
  0 <= shr_m mrs -> 0 <= shr_m (shr_1 mrs).
Proof.
  destruct mrs as [m r s]. simpl.
  destruct m as [|p|p]; [simpl; lia | destruct p; simpl; lia | lia].
Qed.

Lemma iter_pos_invariant {A} (P : A -> Prop) (f : A -> A) :
  (forall x, P x -> P (f x)) ->
  forall p x, P x -> P (iter_pos f p x).
Proof.
  intros Hf. induction p as [p IH|p IH|]; intros x Hx; simpl; auto.
Qed.

Lemma shr_fexp_nonneg (prec emax m e : Z) (l : location) :
  0 <= m -> 0 <= shr_m (fst (shr_fexp prec emax m e l)).
Proof.
  intros Hm. unfold shr_fexp, shr.
  assert (H0 : 0 <= shr_m (shr_record_of_loc m l)) by (destruct l as [|[]]; exact Hm).
  destruct (fexp prec emax (Zdigits2 m + e) - e) as [|p|p]; simpl; try exact H0.
  apply (iter_pos_invariant (fun r => 0 <= shr_m r)); [exact shr_1_nonneg | exact H0].
Qed.

Lemma round_nearest_even_nonneg (m : Z) (l : location) :
  0 <= m -> 0 <= round_nearest_even m l.
Proof.
  intros Hm. destruct l as [|[]]; simpl; try lia.
  destruct (Z.even m); lia.
Qed.

Lemma binary_round_aux_not_nan (prec emax : Z) (s : bool) (m e : Z) (l : location) :
  0 <= m -> binary_round_aux prec emax s m e l <> S754_nan.
Proof.
  intros Hm. unfold binary_round_aux.
  pose proof (shr_fexp_nonneg prec emax m e l Hm) as H1.
  destruct (shr_fexp prec emax m e l) as [mrs' e']. simpl in H1.
  pose proof (shr_fexp_nonneg prec emax
                (round_nearest_even (shr_m mrs') (loc_of_shr_record mrs')) e' loc_Exact
                (round_nearest_even_nonneg _ _ H1)) as H2.
  destruct (shr_fexp prec emax _ e' loc_Exact) as [mrs'' e'']. simpl in H2.
  destruct (shr_m mrs'') as [|p|p]; [discriminate | | lia].
  destruct (e'' <=? emax - prec); discriminate.
Qed.

Lemma binary_normalize_not_nan (prec emax m e : Z) (sz : bool) :
  binary_normalize prec emax m e sz <> S754_nan.
Proof.
  unfold binary_normalize, binary_round.
  destruct m as [|p|p]; [discriminate | |];
    destruct (shl_align _ _ _) as [mz ez]; apply binary_round_aux_not_nan; lia.
Qed.

(** The sum of two finite numbers is not a NaN. *)
Lemma fadd_finite_not_nan (s1 s2 : bool) (m1 m2 : positive) (e1 e2 : Z) :
  fadd (S754_finite s1 m1 e1) (S754_finite s2 m2 e2) <> S754_nan.
Proof. apply binary_normalize_not_nan. Qed.

(** A finite number minus itself is +0. *)
Lemma fsub_same (s : bool) (m : positive) (e : Z) :
  fsub (S754_finite s m e) (S754_finite s m e) = S754_zero false.
Proof. unfold fsub, SFsub. rewrite Z.sub_diag. reflexivity. Qed.

Lemma feq_zero_not_nan (x : spec_float) : feq x fzero = true -> is_nan x = false.
Proof. destruct x; [reflexivity | reflexivity | discriminate | reflexivity]. Qed.

(** The shape the three index functions share, on twice the same finite
    value. *)
Lemma index_of_equal_values (a : float) :
  is_finite a = true ->
  feq (if feq (fadd a a) (float_of_Z 0) then float_of_Z 0
       else fdiv (fsub a a) (fadd a a)) fzero = true.
Proof.
  destruct a as [s|s| |s m e]; try discriminate; intros _.
  - destruct s; reflexivity.
  - destruct (feq (fadd (S754_finite s m e) (S754_finite s m e)) (float_of_Z 0)) eqn:Hd;
      [reflexivity|].
    rewrite fsub_same.
    pose proof (fadd_finite_not_nan s s m m e e) as Hn.
    destruct (fadd (S754_finite s m e) (S754_finite s m e)) as [sd|sd| |sd md ed].
    + discriminate Hd.
    + reflexivity.
    + now elim Hn.
    + reflexivity.
Qed.

(** X1: when the two bands an index reads hold the same finite value, the
    index compares equal to 0 and is not a NaN; this holds for NDVI, NDWI
    and NDWI2. *)
Theorem equal_bands_index_zero (k : index_kind) (pixel : WorldView3ToaPixelType) :
  channel pixel (fst (contributing_bands k)) = channel pixel (snd (contributing_bands k)) ->
  is_finite (channel pixel (fst (contributing_bands k))) = true ->
  feq (spectral_index k pixel) fzero = true
  /\ is_nan (spectral_index k pixel) = false.
Proof.
  intros Heq Hfin.
  assert (H : feq (spectral_index k pixel) fzero = true).
  { destruct k; cbn [contributing_bands fst snd spectral_index] in *;
      unfold compute_ndvi, compute_ndwi, compute_ndwi2; cbv zeta;
      rewrite <- Heq; apply index_of_equal_values; exact Hfin. }
  split; [exact H | apply feq_zero_not_nan; exact H].
Qed.

Lemma ndwi_of_nonfinite (pixel : WorldView3ToaPixelType) :
  is_nan (channel pixel BLUE) = true
  \/ is_nan (channel pixel NIR1) = true
  \/ (is_inf (channel pixel BLUE) = true /\ is_inf (channel pixel NIR1) = true) ->
  compute_ndwi pixel = S754_nan.
Proof.
  intros H. unfold compute_ndwi. cbv zeta.
  destruct (channel pixel BLUE) as [sb|sb| |sb mb eb],
           (channel pixel NIR1) as [sn|sn| |sn mn en];
    simpl in H;
    try (exfalso; destruct H as [H|[H|[H1 H2]]]; discriminate);
    try reflexivity;
    destruct sb, sn; reflexivity.
Qed.

Lemma nan_ndwi_is_land (pixel : WorldView3ToaPixelType) :
  compute_ndwi pixel = S754_nan ->
  is_valid pixel = true ->
  DetectWaterWorldView3Functor pixel = FLOOD_DETECT_LAND.
Proof.
  intros Hn Hv. unfold DetectWaterWorldView3Functor. rewrite Hv. cbv zeta.
  rewrite Hn. reflexivity.
Qed.

(** X2: when BLUE or NIR1 is a NaN, or both are infinite, the NDWI is a NaN
    and a valid pixel is labelled LAND: the comparison with 0.1 is false on
    a NaN. *)
Theorem nonfinite_ndwi_is_land (pixel : WorldView3ToaPixelType) :
  is_nan (channel pixel BLUE) = true
  \/ is_nan (channel pixel NIR1) = true
  \/ (is_inf (channel pixel BLUE) = true /\ is_inf (channel pixel NIR1) = true) ->
  compute_ndwi pixel = S754_nan
  /\ (is_valid pixel = true ->
      DetectWaterWorldView3Functor pixel = FLOOD_DETECT_LAND).
Proof.
  intros H. pose proof (ndwi_of_nonfinite pixel H) as Hn.
  split; [exact Hn | now apply nan_ndwi_is_land].
Qed.

Lemma nonfinite_fmul (x scale : float) :
  is_nan scale || is_inf scale = true ->
  is_nan (fmul x scale) || is_inf (fmul x scale) = true.
Proof.
  destruct scale as [s|s| |s m e]; try discriminate; intros _;
    destruct x as [sx|sx| |sx mx ex]; reflexivity.
Qed.

Lemma nonfinite_fdiv (y d : float) :
  is_nan y || is_inf y = true ->
  is_finite_nonzero d = true ->
  is_nan (fdiv y d) || is_inf (fdiv y d) = true.
Proof.
  destruct d as [sd|sd| |sd md ed]; try discriminate.
  destruct y as [s|s| |s m e]; try discriminate; reflexivity.
Qed.

Lemma esun_finite (b : WORLDVIEW3_CHANNEL_INDICES) :
  is_finite_nonzero (WORLDVIEW_ESUN b) = true.
Proof. destruct b; vm_compute; reflexivity. Qed.

(** X3: with a scale factor that is infinite or a NaN, every channel of the
    reflectance is infinite or a NaN, and every valid pixel is labelled
    LAND, whatever its counts and the gains are. *)
Theorem unbounded_scale_is_land (cos : double -> double) (DEG_TO_RAD : double)
        (pixel_in : WorldView3PixelType) (md : WorldViewMetadataContainer)
        (scale : float) :
  is_nan scale || is_inf scale = true ->
  is_valid pixel_in = true ->
  (forall b : WORLDVIEW3_CHANNEL_INDICES,
      is_finite (channel (to_reflectance (to_radiance (pixel_cast pixel_in) md) scale) b)
      = false)
  /\ DetectWaterWorldView3Functor
       (to_reflectance (to_radiance (pixel_cast pixel_in) md) scale)
     = FLOOD_DETECT_LAND
  /\ (scale_factor cos DEG_TO_RAD md = scale ->
      classify cos DEG_TO_RAD md pixel_in = FLOOD_DETECT_LAND).
Proof.
  intros Hs Hv.
  assert (Hch : forall b : WORLDVIEW3_CHANNEL_INDICES,
             is_nan (channel (to_reflectance (to_radiance (pixel_cast pixel_in) md) scale) b)
             || is_inf (channel (to_reflectance (to_radiance (pixel_cast pixel_in) md) scale) b)
             = true).
  { intros b. rewrite to_reflectance_channel.
    apply nonfinite_fdiv; [apply nonfinite_fmul; exact Hs | apply esun_finite]. }
  assert (Hland : DetectWaterWorldView3Functor
                    (to_reflectance (to_radiance (pixel_cast pixel_in) md) scale)
                  = FLOOD_DETECT_LAND).
  { apply nan_ndwi_is_land; [|exact Hv]. apply ndwi_of_nonfinite.
    pose proof (Hch BLUE) as Hb. pose proof (Hch NIR1) as Hn.
    apply orb_prop in Hb. apply orb_prop in Hn.
    destruct Hb as [Hb|Hb]; [now left|].
    destruct Hn as [Hn|Hn]; [now right; left | now right; right]. }
  split; [|split].
  - intros b. specialize (Hch b).
    destruct (channel (to_reflectance (to_radiance (pixel_cast pixel_in) md) scale) b);
      try discriminate; reflexivity.
  - exact Hland.
  - intros Hsf. unfold classify. rewrite convert_to_toa_stages, Hsf. exact Hland.
Qed.

(** X4: the conversion followed by the classifier yields NODATA for the
    invalid pixels only: a valid pixel is always labelled WATER or LAND,
    whatever its reflectance comes out as. *)
Theorem nodata_iff_invalid (cos : double -> double) (DEG_TO_RAD : double)
        (md : WorldViewMetadataContainer) (pixel_in : WorldView3PixelType) :
  (classify cos DEG_TO_RAD md pixel_in = FLOOD_DETECT_NODATA
   <-> is_valid pixel_in = false)
  /\ (is_valid pixel_in = true ->
      classify cos DEG_TO_RAD md pixel_in = FLOOD_DETECT_WATER
      \/ classify cos DEG_TO_RAD md pixel_in = FLOOD_DETECT_LAND).
Proof.
  unfold classify, DetectWaterWorldView3Functor.
  rewrite convert_to_toa_valid. cbv zeta.
  destruct (is_valid pixel_in);
    destruct (fgt (to_double (compute_ndwi (convert_to_toa cos DEG_TO_RAD pixel_in md)))
                  (dlit 1 10));
    (split; [split; intros H; (discriminate || reflexivity) | intros H; (discriminate || auto)]).
Qed.

Lemma count_round_trip_all :
  all_suffixes 16 0
    (fun n => match float_to_Z (float_of_Z n) with
              | Some z => z =? n
              | None => false
              end) = true.
Proof. vm_compute. reflexivity. Qed.

(** X5: the cast of a raw pixel loses nothing: the [float] a count of the
    [uint16] range is converted to stands for exactly that integer. *)
Theorem pixel_cast_exact (pixel_in : WorldView3PixelType)
        (b : WORLDVIEW3_CHANNEL_INDICES) :
  0 <= channel pixel_in b < 65536 ->
  float_to_Z (channel (pixel_cast pixel_in) b) = Some (channel pixel_in b).
Proof.
  intros Hn. unfold pixel_cast, channel. cbn [child].
  pose proof (all_suffixes_spec _ 16 0 count_round_trip_all (child pixel_in b)) as H.
  change (2 ^ Z.of_nat 16) with 65536 in H. specialize (H ltac:(unfold channel in Hn; lia)).
  cbv beta in H.
  destruct (float_to_Z (float_of_Z (child pixel_in b))) as [z|]; [|discriminate].
  apply Z.eqb_eq in H. now subst.
Qed.

(** ** The reader: what decides its outcome *)

Lemma found_length (l pat : string) :
  found l pat = true -> (String.length pat <= String.length l)%nat.
Proof.
  unfold found, find. destruct (find_first l pat) as [q|] eqn:Hq.
  - intros _. apply find_first_bound in Hq. lia.
  - discriminate.
Qed.

Lemma length_drop (n : nat) (s : string) :
  String.length (drop n s) = (String.length s - n)%nat.
Proof.
  revert s. induction n as [|n IH]; intros s; simpl; [lia|].
  destruct s as [|c s]; simpl; [reflexivity | apply IH].
Qed.

Lemma band_of_group_range (name : string) : -1 <= band_of_group name <= 7.
Proof.
  unfold band_of_group.
  repeat match goal with
         | |- context [String.eqb name ?b] => destruct (String.eqb name b)
         end; lia.
Qed.

Lemma band_of_group_name (name : string) :
  0 <= band_of_group name ->
  exists b : WORLDVIEW3_CHANNEL_INDICES,
    name = band_name b /\ band_of_group name = index_of b.
Proof.
  intros H.
  destruct (in_dec string_dec name recognized_band_names) as [Hin|Hout].
  - simpl in Hin.
    destruct Hin as [<-|[<-|[<-|[<-|[<-|[<-|[<-|[<-|[]]]]]]]]];
      [exists COASTAL | exists BLUE | exists GREEN | exists YELLOW
       | exists RED | exists RED_EDGE | exists NIR1 | exists NIR2];
      split; reflexivity.
  - rewrite (band_of_group_unknown name Hout) in H. lia.
Qed.

Lemma recognized_name_length (name : string) :
  In name recognized_band_names -> (String.length name <= 7)%nat.
Proof.
  simpl. intros [<-|[<-|[<-|[<-|[<-|[<-|[<-|[<-|[]]]]]]]]]; simpl; lia.
Qed.

(** The outcome of a turn of the loop, the band index, the count and the
    timestamp it leaves are the same whatever the numbers read are. *)
Lemma scan_line_outcome (p p' : string -> float) (st st' : scan_state) (l : string) :
  channel_index st = channel_index st' ->
  found_count st = found_count st' ->
  datetime (metadata st) = datetime (metadata st') ->
  match scan_line p st l, scan_line p' st' l with
  | Ok r, Ok r' =>
      channel_index r = channel_index r' /\ found_count r = found_count r'
      /\ datetime (metadata r) = datetime (metadata r')
  | Throw e, Throw e' => e = e'
  | _, _ => False
  end.
Proof.
  intros Hci Hfc Hdt. unfold scan_line. rewrite <- Hci, <- Hfc.
  destruct (found l "BEGIN_GROUP").
  { destruct (group_name l); cbn; auto. }
  destruct (found l "absCalFactor").
  { destruct (channel_index st <? 0); cbn; auto. }
  destruct (found l "effectiveBandwidth").
  { destruct (channel_index st <? 0); cbn; auto. }
  destruct (found l "meanSunEl"); [cbn; auto|].
  destruct (found l "firstLineTime"); [|cbn; auto].
  destruct (substr_from l (size_t_add (find l "=") 1)); cbn; auto.
Qed.

Lemma scan_outcome (p p' : string -> float) (lines : list string) :
  forall st st',
    channel_index st = channel_index st' ->
    found_count st = found_count st' ->
    datetime (metadata st) = datetime (metadata st') ->
    match scan p lines st, scan p' lines st' with
    | Ok r, Ok r' =>
        found_count r = found_count r'
        /\ datetime (metadata r) = datetime (metadata r')
    | Throw e, Throw e' => e = e'
    | _, _ => False
    end.
Proof.
  induction lines as [|l lines IH]; intros st st' Hci Hfc Hdt; simpl; [auto|].
  pose proof (scan_line_outcome p p' st st' l Hci Hfc Hdt) as H.
  destruct (scan_line p st l) as [r|e], (scan_line p' st' l) as [r'|e'];
    simpl; try contradiction; [|exact H].
  destruct H as (H1 & H2 & H3). apply IH; assumption.
Qed.

Lemma populate_outcome (atof atof' : string -> double)
      (c c' : Z -> Z -> Z -> Z -> Z -> float -> float)
      (md md' : WorldViewMetadataContainer) :
  datetime md = datetime md' ->
  same_outcome (populate_derived_values atof c md)
               (populate_derived_values atof' c' md').
Proof.
  intros Hdt. unfold populate_derived_values. rewrite <- Hdt.
  repeat match goal with
         | |- context [substr ?s ?a ?b] => destruct (substr s a b); cbn [bind]
         end; simpl; auto.
Qed.

(** X6: whether the reader returns, and which exception it throws when it
    does not, is decided by the text of the lines and the timestamp the
    container holds on entry: it is the same for any numbers
    [parse_metadata_line], [atof] and [compute_earth_sun_distance] yield and
    any gains the container holds.  A value that cannot be read is never an
    error. *)
Theorem outcome_independent_of_values
        (atof atof' : string -> double) (p p' : string -> float)
        (c c' : Z -> Z -> Z -> Z -> Z -> float -> float)
        (lines : list string) (md md' : WorldViewMetadataContainer) :
  datetime md = datetime md' ->
  same_outcome (load_from_lines atof p c lines md)
               (load_from_lines atof' p' c' lines md').
Proof.
  intros Hdt. unfold load_from_lines.
  pose proof (scan_outcome p p' lines (initial_state md) (initial_state md')
                eq_refl eq_refl Hdt) as H.
  destruct (scan p lines (initial_state md)) as [r|e],
           (scan p' lines (initial_state md')) as [r'|e'];
    cbn [bind]; try contradiction; [|exact H].
  destruct H as [Hfc Hd]. unfold check_complete. rewrite <- Hfc.
  destruct (negb (found_count r =? 2 * NUM_WORLDVIEW_BANDS + 2)); cbn [bind];
    [reflexivity | now apply populate_outcome].
Qed.

(** X7: a BEGIN_GROUP line throws [std::out_of_range] exactly when its first
    [=] is its last character; any other BEGIN_GROUP line, also one without
    [=], yields a name and sets the band index from it. *)
Theorem group_line_throws_iff (p : string -> float) (st : scan_state) (line : string) :
  found line "BEGIN_GROUP" = true ->
  size line < npos ->
  (ends_at_first_eq line = true -> scan_line p st line = Throw out_of_range)
  /\ (ends_at_first_eq line = false ->
      exists name,
        group_name line = Ok name
        /\ scan_line p st line
           = Ok (mkState (band_of_group name) (found_count st) (metadata st))).
Proof.
  intros Hg Hsz. pose proof (found_length _ _ Hg) as Hlen. simpl in Hlen.
  unfold scan_line. rewrite Hg.
  unfold group_name, substr_from, find, ends_at_first_eq, size, npos in *.
  destruct (find_first line "=") as [q|] eqn:Hq.
  - apply find_first_bound in Hq. simpl in Hq.
    unfold size_t_add. rewrite Z.mod_small by lia.
    split; intros He.
    + apply Nat.eqb_eq in He.
      replace (Z.of_nat (String.length line) <? Z.of_nat q + 2) with true
        by (symmetry; apply Z.ltb_lt; lia).
      reflexivity.
    + apply Nat.eqb_neq in He.
      replace (Z.of_nat (String.length line) <? Z.of_nat q + 2) with false
        by (symmetry; apply Z.ltb_ge; lia).
      eexists. split; reflexivity.
  - split; [discriminate|]. intros _.
    change (size_t_add (2 ^ 64 - 1) 2) with 1.
    replace (Z.of_nat (String.length line) <? 1) with false
      by (symmetry; apply Z.ltb_ge; lia).
    eexists. split; reflexivity.
Qed.

(** X8: the derive step throws exactly when the timestamp has fewer than 17
    characters, and then [std::out_of_range]: on a shorter timestamp it
    throws, on a timestamp of 17 characters or more it returns the container
    with a new [earth_sun_distance]; whenever it returns, it has set
    [earth_sun_distance] and nothing else. *)
Theorem derive_step_outcome (atof : string -> double)
        (c : Z -> Z -> Z -> Z -> Z -> float -> float)
        (md : WorldViewMetadataContainer) :
  ((String.length (datetime md) < 17)%nat ->
   populate_derived_values atof c md = Throw out_of_range)
  /\ ((17 <= String.length (datetime md))%nat ->
      exists d, populate_derived_values atof c md = Ok (set_earth_sun_distance md d))
  /\ (forall md',
        populate_derived_values atof c md = Ok md' ->
        (17 <= String.length (datetime md))%nat
        /\ abs_cal_factor md' = abs_cal_factor md
        /\ effective_bandwidth md' = effective_bandwidth md
        /\ mean_sun_elevation md' = mean_sun_elevation md
        /\ datetime md' = datetime md).
Proof.
  unfold populate_derived_values, substr. split; [|split].
  - intros Hlt.
    repeat match goal with
           | |- context [(String.length ?s <? ?n)%nat] =>
               destruct (Nat.ltb_spec (String.length s) n); cbn [bind];
               try reflexivity
           end.
    lia.
  - intros Hlen.
    repeat match goal with
           | |- context [(String.length ?s <? ?n)%nat] =>
               replace (String.length s <? n)%nat with false
                 by (symmetry; apply Nat.ltb_ge; lia)
           end.
    cbn [bind]. eexists. reflexivity.
  - intros md'.
    repeat match goal with
           | |- context [(String.length ?s <? ?n)%nat] =>
               destruct (Nat.ltb_spec (String.length s) n); cbn [bind];
               try discriminate
           end.
    intros [= <-]. repeat split; try reflexivity. lia.
Qed.

(** ** The derive step on a timestamp that starts with the year *)

Lemma isdigit_plain (c : ascii) :
  isdigit c = true ->
  isspace c = false /\ (c =? "-")%char = false /\ (c =? "+")%char = false.
Proof.
  destruct c as [b0 b1 b2 b3 b4 b5 b6 b7].
  destruct b0, b1, b2, b3, b4, b5, b6, b7; vm_compute; intros H;
    try discriminate H; repeat split.
Qed.

Lemma digits_decimal (s : string) :
  forall acc, all_digits s = true -> digits acc s = decimal_from acc s.
Proof.
  induction s as [|c s IH]; intros acc; simpl; [reflexivity|].
  intros H. apply andb_prop in H as [Hc Hs]. rewrite Hc. apply IH. exact Hs.
Qed.

(** [atoi] of a run of digits is the number it spells. *)
Lemma atoi_all_digits (s : string) : all_digits s = true -> atoi s = decimal s.
Proof.
  intros H. unfold atoi, decimal. destruct s as [|c s]; [reflexivity|].
  pose proof H as H'. simpl in H'. apply andb_prop in H' as [Hc _].
  destruct (isdigit_plain c Hc) as (Hsp & Hm & Hp).
  cbn [skip_spaces]. rewrite Hsp, Hm, Hp. apply digits_decimal. exact H.
Qed.

(** X9: on a timestamp that starts with the year (four digits, then two
    digits each for month, day, hour and minute, one character of any kind
    after each field) the derive step computes the distance from the numbers
    the digits spell and from the eight characters at offset 17; the
    separators are not looked at. *)
Theorem derive_step_reads_fields (atof : string -> double)
        (c : Z -> Z -> Z -> Z -> Z -> float -> float)
        (md : WorldViewMetadataContainer)
        (year month day hour minute : string) (s1 s2 s3 s4 s5 : ascii)
        (rest : string) :
  map String.length [year; month; day; hour; minute] = [4; 2; 2; 2; 2]%nat ->
  forallb all_digits [year; month; day; hour; minute] = true ->
  populate_derived_values atof c
    (set_datetime md (timestamp_text year month day hour minute s1 s2 s3 s4 s5 rest))
  = Ok (set_earth_sun_distance
          (set_datetime md (timestamp_text year month day hour minute s1 s2 s3 s4 s5 rest))
          (c (decimal year) (decimal month) (decimal day) (decimal hour)
             (decimal minute) (to_float (atof (substring 0 8 rest))))).
Proof.
  intros Hlen Hdig.
  injection Hlen as Hy Hmo Hd Hh Hmi.
  cbn [forallb] in Hdig.
  repeat (apply andb_prop in Hdig as [? Hdig]).
  destruct year as [|y1 [|y2 [|y3 [|y4 [|? ?]]]]]; try discriminate Hy.
  destruct month as [|m1 [|m2 [|? ?]]]; try discriminate Hmo.
  destruct day as [|d1 [|d2 [|? ?]]]; try discriminate Hd.
  destruct hour as [|h1 [|h2 [|? ?]]]; try discriminate Hh.
  destruct minute as [|n1 [|n2 [|? ?]]]; try discriminate Hmi.
  unfold populate_derived_values, timestamp_text, substr.
  cbn [set_datetime datetime append String.length Nat.ltb Nat.leb substring bind].
  rewrite !atoi_all_digits by assumption.
  reflexivity.
Qed.

(** ** The band registry *)

(** X10: the chain of comparisons maps the eight group names onto the
    indices of [WORLDVIEW3_CHANNEL_INDICES], in the order of the
    enumeration; every other text, also a band name with a character more
    or less, gives -1, and no other value is produced. *)
Theorem band_registry (name : string) :
  (forall b : WORLDVIEW3_CHANNEL_INDICES, band_of_group (band_name b) = index_of b)
  /\ -1 <= band_of_group name <= 7
  /\ (0 <= band_of_group name ->
      exists b : WORLDVIEW3_CHANNEL_INDICES,
        name = band_name b /\ band_of_group name = index_of b)
  /\ (~ In name recognized_band_names -> band_of_group name = -1).
Proof.
  split; [intros b; destruct b; reflexivity|].
  split; [apply band_of_group_range|].
  split; [apply band_of_group_name | apply band_of_group_unknown].
Qed.

Lemma last_char_drop (n : nat) :
  forall s c, last_char s = Some c ->
              drop n s = EmptyString \/ last_char (drop n s) = Some c.
Proof.
  induction n as [|n IH]; intros s c H; [now right|].
  destruct s as [|a s]; [discriminate|].
  cbn [drop]. destruct s as [|a' s].
  - left. destruct n; reflexivity.
  - apply IH. exact H.
Qed.

(** X11: a BEGIN_GROUP line whose last character is none of those the band
    names end with (a carriage return left by CR LF line ends, a blank, a
    semicolon) opens no band: when the turn returns, the band index is -1. *)
Theorem group_line_with_trailing_character (p : string -> float)
        (st st' : scan_state) (line : string) (c : ascii) :
  found line "BEGIN_GROUP" = true ->
  last_char line = Some c ->
  ~ In c band_name_endings ->
  scan_line p st line = Ok st' ->
  channel_index st' = -1.
Proof.
  intros Hg Hlast Hc. unfold scan_line. rewrite Hg.
  unfold group_name, substr_from.
  destruct (size line <? size_t_add (find line "=") 2); [discriminate|].
  cbn [bind]. intros [= <-]. cbn [channel_index].
  apply band_of_group_unknown. intros Hin.
  destruct (last_char_drop (Z.to_nat (size_t_add (find line "=") 2)) line c Hlast)
    as [He|Hl].
  - rewrite He in Hin. simpl in Hin.
    repeat (destruct Hin as [Hin|Hin]; [discriminate Hin|]). exact Hin.
  - apply Hc. simpl in Hin.
    destruct Hin as [Hin|[Hin|[Hin|[Hin|[Hin|[Hin|[Hin|[Hin|[]]]]]]]]];
      rewrite <- Hin in Hl; injection Hl as <-; simpl; tauto.
Qed.

(** ** What the loop writes *)

Lemma vset_other {T} (v : Vector8 T) (i j : Z) (x : T) :
  j <> i -> vset v i x j = v j.
Proof. intros H. unfold vset. apply Z.eqb_neq in H. now rewrite H. Qed.

(** A turn of the loop on a line other than a BEGIN_GROUP line writes the
    two arrays at the band index only, and only when that index is not
    negative; it leaves the distance alone. *)
Lemma scan_line_frame (p : string -> float) (st st' : scan_state) (l : string) :
  found l "BEGIN_GROUP" = false ->
  scan_line p st l = Ok st' ->
  (forall j, j <> channel_index st \/ channel_index st < 0 ->
             abs_cal_factor (metadata st') j = abs_cal_factor (metadata st) j
             /\ effective_bandwidth (metadata st') j = effective_bandwidth (metadata st) j)
  /\ earth_sun_distance (metadata st') = earth_sun_distance (metadata st).
Proof.
  intros Hg. unfold scan_line. rewrite Hg.
  destruct (found l "absCalFactor").
  { destruct (Z.ltb_spec (channel_index st) 0); [discriminate|]. intros [= <-]. cbn.
    split; [|reflexivity]. intros j Hj. rewrite vset_other by lia. now split. }
  destruct (found l "effectiveBandwidth").
  { destruct (Z.ltb_spec (channel_index st) 0); [discriminate|]. intros [= <-]. cbn.
    split; [|reflexivity]. intros j Hj. rewrite vset_other by lia. now split. }
  destruct (found l "meanSunEl").
  { intros [= <-]. cbn. split; [|reflexivity]. intros j Hj. now split. }
  destruct (found l "firstLineTime").
  { destruct (substr_from l (size_t_add (find l "=") 1)); [|discriminate].
    cbn [bind]. intros [= <-]. cbn. split; [|reflexivity]. intros j Hj. now split. }
  intros [= <-]. split; [|reflexivity]. intros j Hj. now split.
Qed.

(** Inside a band group no line other than a BEGIN_GROUP line throws. *)
Lemma scan_line_inside (p : string -> float) (st : scan_state) (l : string) :
  0 <= channel_index st ->
  found l "BEGIN_GROUP" = false ->
  exists st', scan_line p st l = Ok st'.
Proof.
  intros Hci Hg. apply Z.ltb_ge in Hci. unfold scan_line. rewrite Hg, Hci.
  destruct (found l "absCalFactor"); [eauto|].
  destruct (found l "effectiveBandwidth"); [eauto|].
  destruct (found l "meanSunEl"); [eauto|].
  destruct (found l "firstLineTime"); [|eauto].
  destruct (substr_after_eq l) as (dt & ->). cbn [bind]. eauto.
Qed.

(** Inside a band group the lines up to the next BEGIN_GROUP line are read
    to the end. *)
Lemma scan_inside_band (p : string -> float) (body : list string) :
  forall st,
    0 <= channel_index st ->
    forallb (fun l => negb (found l "BEGIN_GROUP")) body = true ->
    exists st',
      scan p body st = Ok st'
      /\ channel_index st' = channel_index st
      /\ found_count st' = found_count st + field_hits body
      /\ (forall j, j <> channel_index st ->
                    abs_cal_factor (metadata st') j = abs_cal_factor (metadata st) j
                    /\ effective_bandwidth (metadata st') j
                       = effective_bandwidth (metadata st) j)
      /\ earth_sun_distance (metadata st') = earth_sun_distance (metadata st).
Proof.
  induction body as [|l body IH]; intros st Hci Hall.
  - exists st. unfold field_hits. simpl. repeat split; lia.
  - cbn [forallb] in Hall. apply andb_prop in Hall as [Hl Hall].
    apply Bool.negb_true_iff in Hl.
    destruct (scan_line_inside p st l Hci Hl) as (s1 & H1).
    pose proof (scan_line_effect p _ _ _ H1) as [Hc1 Hi1]. specialize (Hi1 Hl).
    pose proof (scan_line_frame p _ _ _ Hl H1) as [Hf1 He1].
    destruct (IH s1 ltac:(lia) Hall) as (st' & Hs & Hi & Hc & Hf & He).
    exists st'. cbn [scan]. rewrite H1. cbn [bind].
    split; [exact Hs|]. split; [lia|]. split; [rewrite field_hits_cons; lia|].
    split; [|congruence].
    intros j Hj. rewrite Hi1 in Hf.
    destruct (Hf j Hj) as [Ha Hb]. destruct (Hf1 j (or_introl Hj)) as [Ha1 Hb1].
    split; congruence.
Qed.

(** X12: between the BEGIN_GROUP line of a band and the next BEGIN_GROUP
    line nothing can fail: the lines are read to the end, the band index
    stays, the count grows by the number of key lines, and of the two arrays
    only the entries of that band can change; the distance is not written. *)
Theorem band_group_body (p : string -> float) (body : list string) :
  forall st,
    0 <= channel_index st ->
    forallb (fun l => negb (found l "BEGIN_GROUP")) body = true ->
    exists st',
      scan p body st = Ok st'
      /\ channel_index st' = channel_index st
      /\ found_count st' = found_count st + field_hits body
      /\ (forall j, j <> channel_index st ->
                    abs_cal_factor (metadata st') j = abs_cal_factor (metadata st) j
                    /\ effective_bandwidth (metadata st') j
                       = effective_bandwidth (metadata st) j)
      /\ earth_sun_distance (metadata st') = earth_sun_distance (metadata st).
Proof. exact (scan_inside_band p body). Qed.

(** X13: on any stream the band index stays within -1..7, so the two arrays
    of eight entries are never written outside their bounds, and the loop
    never writes [earth_sun_distance], which only the derive step sets. *)
Theorem scan_stays_in_bounds (p : string -> float) (lines : list string) :
  forall st st',
    -1 <= channel_index st <= 7 ->
    scan p lines st = Ok st' ->
    -1 <= channel_index st' <= 7
    /\ (forall j, j < 0 \/ 7 < j ->
                  abs_cal_factor (metadata st') j = abs_cal_factor (metadata st) j
                  /\ effective_bandwidth (metadata st') j
                     = effective_bandwidth (metadata st) j)
    /\ earth_sun_distance (metadata st') = earth_sun_distance (metadata st).
Proof.
  induction lines as [|l lines IH]; intros st st' Hci; cbn [scan].
  - intros [= <-]. repeat split; lia.
  - destruct (scan_line p st l) as [s1|] eqn:H1; [|discriminate]. cbn [bind].
    intros Hrest.
    assert (Hstep : -1 <= channel_index s1 <= 7
                    /\ (forall j, j < 0 \/ 7 < j ->
                          abs_cal_factor (metadata s1) j = abs_cal_factor (metadata st) j
                          /\ effective_bandwidth (metadata s1) j
                             = effective_bandwidth (metadata st) j)
                    /\ earth_sun_distance (metadata s1) = earth_sun_distance (metadata st)).
    { destruct (found l "BEGIN_GROUP") eqn:Hg.
      - unfold scan_line in H1. rewrite Hg in H1.
        destruct (group_name l) as [name|]; [|discriminate].
        cbn [bind] in H1. injection H1 as <-. cbn.
        split; [apply band_of_group_range|]. split; [now split | reflexivity].
      - pose proof (scan_line_effect p _ _ _ H1) as [_ Hi]. specialize (Hi Hg).
        pose proof (scan_line_frame p _ _ _ Hg H1) as [Hf He].
        split; [lia|]. split; [|exact He].
        intros j Hj. apply Hf. lia. }
    destruct Hstep as (Hb1 & Hf1 & He1).
    destruct (IH s1 st' Hb1 Hrest) as (Hb & Hf & He).
    split; [exact Hb|]. split; [|congruence].
    intros j Hj. destruct (Hf j Hj) as [Ha Hb']. destruct (Hf1 j Hj) as [Ha1 Hb1'].
    split; congruence.
Qed.

(** X14: the count does not tell the keys apart.  When a stream is read to
    its end, any one of its key lines can be replaced by a meanSunEl line:
    the new stream is read to its end too, with the same count, so the
    completeness test gives the same verdict although a gain, a bandwidth or
    the timestamp is no longer set by the file. *)
Theorem count_ignores_key_kind (p : string -> float) (pre post : list string)
        (l l' : string) (md : WorldViewMetadataContainer) (st : scan_state) :
  scan p (pre ++ l :: post) (initial_state md) = Ok st ->
  is_field_line l = true ->
  is_sun_elevation_line l' = true ->
  exists st',
    scan p (pre ++ l' :: post) (initial_state md) = Ok st'
    /\ found_count st' = found_count st
    /\ succeeds (check_complete st') = succeeds (check_complete st).
Proof.
  intros Hscan Hl Hl'.
  rewrite scan_app in Hscan.
  destruct (scan p pre (initial_state md)) as [s1|] eqn:Hpre; [|discriminate].
  cbn [bind scan] in Hscan.
  destruct (scan_line p s1 l) as [s2|] eqn:H2; [|discriminate].
  cbn [bind] in Hscan.
  pose proof (scan_line_effect p _ _ _ H2) as [Hc2 Hi2]. rewrite Hl in Hc2.
  assert (Hg : found l "BEGIN_GROUP" = false).
  { unfold is_field_line in Hl. apply andb_prop in Hl as [Hl _].
    now apply Bool.negb_true_iff in Hl. }
  specialize (Hi2 Hg).
  unfold is_sun_elevation_line in Hl'.
  apply andb_prop in Hl' as [Hl' Hsun]. apply andb_prop in Hl' as [Hl' Hbw].
  apply andb_prop in Hl' as [Hg' Habs].
  apply Bool.negb_true_iff in Hg', Habs, Hbw.
  assert (H2' : scan_line p s1 l'
                = Ok (mkState (channel_index s1) (found_count s1 + 1)
                        (set_mean_sun_elevation (metadata s1) (p l')))).
  { unfold scan_line. now rewrite Hg', Habs, Hbw, Hsun. }
  destruct (scan_sim p post s2
              (mkState (channel_index s1) (found_count s1 + 1)
                 (set_mean_sun_elevation (metadata s1) (p l')))
              st Hi2 Hscan) as (r & Hr & Hd).
  exists r. rewrite scan_app, Hpre. cbn [bind scan]. rewrite H2'. cbn [bind].
  split; [exact Hr|].
  cbn [found_count] in Hd.
  assert (Hfc : found_count r = found_count st) by lia.
  split; [exact Hfc|]. unfold check_complete. rewrite Hfc.
  destruct (negb (found_count st =? 2 * NUM_WORLDVIEW_BANDS + 2)); reflexivity.
Qed.

(** X15: a line without any [=].  The position [npos] wraps around when 2
    or 1 is added: a BEGIN_GROUP line gives the line without its first
    character as the name, which is no band name, so the band index becomes
    -1; a firstLineTime line stores the whole line as the timestamp and is
    counted. *)
Theorem line_without_equals_sign (p : string -> float) (st : scan_state) (l : string) :
  find_first l "=" = None ->
  (found l "BEGIN_GROUP" = true ->
   scan_line p st l = Ok (mkState (-1) (found_count st) (metadata st)))
  /\ (is_first_line_time_line l = true ->
      scan_line p st l
      = Ok (mkState (channel_index st) (found_count st + 1)
              (set_datetime (metadata st) l))).
Proof.
  intros Hno. split.
  - intros Hg. pose proof (found_length _ _ Hg) as Hlen. simpl in Hlen.
    unfold scan_line, group_name, substr_from, find. rewrite Hg, Hno.
    change (size_t_add npos 2) with 1.
    replace (size l <? 1) with false
      by (symmetry; apply Z.ltb_ge; unfold size; lia).
    cbn [bind]. rewrite band_of_group_unknown; [reflexivity|].
    intros Hin. apply recognized_name_length in Hin.
    rewrite length_drop in Hin. change (Z.to_nat 1) with 1%nat in Hin. lia.
  - unfold is_first_line_time_line. intros H.
    apply andb_prop in H as [H Ht]. apply andb_prop in H as [H Hsun].
    apply andb_prop in H as [H Hbw]. apply andb_prop in H as [Hg Habs].
    apply Bool.negb_true_iff in Hg, Habs, Hbw, Hsun.
    unfold scan_line, substr_from, find. rewrite Hg, Habs, Hbw, Hsun, Ht, Hno.
    change (size_t_add npos 1) with 0.
    replace (size l <? 0) with false
      by (symmetry; apply Z.ltb_ge; unfold size; lia).
    reflexivity.
Qed.

(** ** The further properties on concrete inputs *)

Lemma equal_bands_index_zero_witness :
  channel Cases.equal_bands RED = channel Cases.equal_bands NIR2
  /\ is_finite (channel Cases.equal_bands RED) = true
  /\ feq (compute_ndvi Cases.equal_bands) fzero = true.
Proof.
  split; [reflexivity|]. split; [reflexivity|].
  apply (equal_bands_index_zero NDVI Cases.equal_bands); reflexivity.
Defined.

Lemma nonfinite_ndwi_is_land_witness :
  is_nan (channel Cases.nan_blue BLUE) = true
  /\ compute_ndwi Cases.nan_blue = S754_nan.
Proof.
  split; [reflexivity|].
  apply (nonfinite_ndwi_is_land Cases.nan_blue). left. reflexivity.
Defined.

Lemma unbounded_scale_is_land_witness :
  is_nan (S754_infinity false) || is_inf (S754_infinity false) = true
  /\ is_valid Sample.raw_1000 = true
  /\ DetectWaterWorldView3Functor
       (to_reflectance (to_radiance (pixel_cast Sample.raw_1000) Sample.unit_gain_metadata)
          (S754_infinity false))
     = FLOOD_DETECT_LAND.
Proof.
  split; [reflexivity|]. split; [reflexivity|].
  destruct (unbounded_scale_is_land Sample.cos Sample.DEG_TO_RAD Sample.raw_1000
              Sample.unit_gain_metadata (S754_infinity false) eq_refl eq_refl)
    as (_ & H & _).
  exact H.
Defined.

Lemma pixel_cast_exact_witness :
  0 <= channel Sample.raw_1000 COASTAL < 65536
  /\ float_to_Z (channel (pixel_cast Sample.raw_1000) COASTAL) = Some 1000.
Proof.
  split; [simpl; lia|].
  apply (pixel_cast_exact Sample.raw_1000 COASTAL). simpl. lia.
Defined.

Lemma outcome_independent_of_values_witness :
  datetime Sample.empty_metadata = datetime Sample.unit_gain_metadata
  /\ same_outcome
       (load_from_lines Sample.atof Sample.parse_metadata_line
          Sample.compute_earth_sun_distance Sample.imd_file Sample.empty_metadata)
       (load_from_lines (fun _ => S754_nan) (fun _ => S754_nan)
          (fun _ _ _ _ _ _ => S754_nan) Sample.imd_file Sample.unit_gain_metadata).
Proof.
  split; [reflexivity|].
  apply (outcome_independent_of_values Sample.atof (fun _ => S754_nan)
           Sample.parse_metadata_line (fun _ => S754_nan)
           Sample.compute_earth_sun_distance (fun _ _ _ _ _ _ => S754_nan)
           Sample.imd_file Sample.empty_metadata Sample.unit_gain_metadata).
  reflexivity.
Defined.

Lemma group_line_throws_iff_witness :
  found Cases.group_line_ending_in_eq "BEGIN_GROUP" = true
  /\ size Cases.group_line_ending_in_eq < npos
  /\ ends_at_first_eq Cases.group_line_ending_in_eq = true
  /\ scan_line Sample.parse_metadata_line (initial_state Sample.empty_metadata)
       Cases.group_line_ending_in_eq
     = Throw out_of_range.
Proof.
  split; [reflexivity|]. split; [reflexivity|]. split; [reflexivity|].
  apply (group_line_throws_iff Sample.parse_metadata_line
           (initial_state Sample.empty_metadata) Cases.group_line_ending_in_eq);
    reflexivity.
Defined.

Lemma derive_step_reads_fields_witness :
  map String.length ["2016"; "10"; "23"; "17"; "46"]%string = [4; 2; 2; 2; 2]%nat
  /\ forallb all_digits ["2016"; "10"; "23"; "17"; "46"]%string = true
  /\ timestamp_text "2016" "10" "23" "17" "46" "-" "-" "T" ":" ":" "54.796950Z;"
     = "2016-10-23T17:46:54.796950Z;"%string
  /\ populate_derived_values Sample.atof Sample.compute_earth_sun_distance
       (set_datetime Sample.empty_metadata "2016-10-23T17:46:54.796950Z;")
     = Ok (set_earth_sun_distance
             (set_datetime Sample.empty_metadata "2016-10-23T17:46:54.796950Z;")
             (Sample.compute_earth_sun_distance 2016 10 23 17 46
                (to_float (Sample.atof "54.79695")))).
Proof.
  split; [reflexivity|]. split; [reflexivity|]. split; [reflexivity|].
  apply (derive_step_reads_fields Sample.atof Sample.compute_earth_sun_distance
           Sample.empty_metadata "2016" "10" "23" "17" "46" "-" "-" "T" ":" ":"
           "54.796950Z;"); reflexivity.
Defined.

Lemma group_line_with_trailing_character_witness :
  found Cases.crlf_group_line "BEGIN_GROUP" = true
  /\ last_char Cases.crlf_group_line = Some (ascii_of_nat 13)
  /\ channel_index (mkState (-1) 0 Sample.empty_metadata) = -1.
Proof.
  split; [reflexivity|]. split; [reflexivity|].
  apply (group_line_with_trailing_character Sample.parse_metadata_line
           (initial_state Sample.empty_metadata)
           (mkState (-1) 0 Sample.empty_metadata)
           Cases.crlf_group_line (ascii_of_nat 13));
    [reflexivity | reflexivity | | reflexivity].
  intros H. repeat (destruct H as [H|H]; [discriminate H|]). exact H.
Defined.

Lemma band_group_body_witness :
  0 <= channel_index Cases.inside_green
  /\ forallb (fun l => negb (found l "BEGIN_GROUP")) Cases.group_body = true
  /\ exists st',
       scan Sample.parse_metadata_line Cases.group_body Cases.inside_green = Ok st'
       /\ channel_index st' = channel_index Cases.inside_green
       /\ found_count st' = found_count Cases.inside_green + field_hits Cases.group_body.
Proof.
  split; [simpl; lia|]. split; [reflexivity|].
  destruct (band_group_body Sample.parse_metadata_line Cases.group_body
              Cases.inside_green ltac:(simpl; lia) eq_refl)
    as (st' & H1 & H2 & H3 & _).
  exists st'. repeat split; assumption.
Defined.

Lemma scan_stays_in_bounds_witness :
  exists st',
    -1 <= channel_index (initial_state Sample.empty_metadata) <= 7
    /\ scan Sample.parse_metadata_line Sample.imd_file
         (initial_state Sample.empty_metadata) = Ok st'
    /\ -1 <= channel_index st' <= 7.
Proof.
  eexists. split; [simpl; lia|]. split; [vm_compute; reflexivity|].
  match goal with
  | |- -1 <= channel_index ?st <= 7 =>
      apply (scan_stays_in_bounds Sample.parse_metadata_line Sample.imd_file
               (initial_state Sample.empty_metadata) st);
      [simpl; lia | vm_compute; reflexivity]
  end.
Defined.

Lemma count_ignores_key_kind_witness :
  exists st st',
    scan Sample.parse_metadata_line
         (["BEGIN_GROUP = BAND_C"%string] ++ Sample.key_line :: [])
         (initial_state Sample.empty_metadata) = Ok st
    /\ is_field_line Sample.key_line = true
    /\ is_sun_elevation_line Cases.sun_line = true
    /\ scan Sample.parse_metadata_line
         (["BEGIN_GROUP = BAND_C"%string] ++ Cases.sun_line :: [])
         (initial_state Sample.empty_metadata) = Ok st'
    /\ found_count st' = found_count st.
Proof.
  eexists.
  match goal with
  | |- exists st', scan _ _ _ = Ok ?st /\ _ =>
      destruct (count_ignores_key_kind Sample.parse_metadata_line
                  ["BEGIN_GROUP = BAND_C"%string] [] Sample.key_line Cases.sun_line
                  Sample.empty_metadata
                  (mkState 0 1
                     (set_abs_cal_factor Sample.empty_metadata 0
                        (Sample.parse_metadata_line Sample.key_line)))
                  eq_refl eq_refl eq_refl) as (st' & H1 & H2 & _);
      exists st'
  end.
  split; [reflexivity|]. split; [reflexivity|]. split; [reflexivity|].
  split; [exact H1 | exact H2].
Defined.

Lemma line_without_equals_sign_witness :
  find_first Cases.group_line_no_eq "=" = None
  /\ found Cases.group_line_no_eq "BEGIN_GROUP" = true
  /\ is_first_line_time_line Cases.time_line_no_eq = true
  /\ scan_line Sample.parse_metadata_line (mkState 3 7 Sample.empty_metadata)
       Cases.group_line_no_eq
     = Ok (mkState (-1) 7 Sample.empty_metadata).
Proof.
  split; [reflexivity|]. split; [reflexivity|]. split; [reflexivity|].
  apply (line_without_equals_sign Sample.parse_metadata_line
           (mkState 3 7 Sample.empty_metadata) Cases.group_line_no_eq);
    reflexivity.
Defined.

(** ** Files the reader accepts *)

Lemma scan_without_band_keys (p : string -> float) (body : list string) :
  forall st,
    forallb not_group_line body = true ->
    forallb no_band_key body = true ->
    exists st', scan p body st = Ok st'.
Proof.
  induction body as [|l body IH]; intros st Hg Hk; [now exists st|].
  cbn [forallb] in Hg, Hk.
  apply andb_prop in Hg as [Hl Hg]. apply andb_prop in Hk as [Hkl Hk].
  unfold not_group_line in Hl. apply Bool.negb_true_iff in Hl.
  unfold no_band_key in Hkl. apply andb_prop in Hkl as [Ha Hb].
  apply Bool.negb_true_iff in Ha, Hb.
  assert (H1 : exists s1, scan_line p st l = Ok s1).
  { unfold scan_line. rewrite Hl, Ha, Hb.
    destruct (found l "meanSunEl"); [eauto|].
    destruct (found l "firstLineTime"); [|eauto].
    destruct (substr_after_eq l) as (dt & ->). cbn [bind]. eauto. }
  destruct H1 as (s1 & H1). cbn [scan]. rewrite H1. cbn [bind].
  apply IH; assumption.
Qed.

Lemma scan_group (p : string -> float) (g : group) :
  well_formed_group g = true ->
  forall st, exists st', scan p (fst g :: snd g) st = Ok st'.
Proof.
  unfold well_formed_group. intros H st.
  apply andb_prop in H as [H Hband]. apply andb_prop in H as [H Hbody].
  apply andb_prop in H as [Hg Hname].
  destruct (group_name (fst g)) as [name|] eqn:Hn; [|discriminate].
  cbn [scan]. unfold scan_line. rewrite Hg, Hn. cbn [bind].
  apply orb_prop in Hband as [Hopen|Hkeys].
  - unfold opens_band in Hopen. rewrite Hg, Hn in Hopen. simpl in Hopen.
    apply Z.leb_le in Hopen.
    destruct (scan_inside_band p (snd g)
                (mkState (band_of_group name) (found_count st) (metadata st))
                Hopen Hbody) as (st' & Hs & _).
    now exists st'.
  - now apply scan_without_band_keys.
Qed.

Lemma scan_groups (p : string -> float) (groups : list group) :
  forallb well_formed_group groups = true ->
  forall st,
  exists st', scan p (List.concat (map (fun g : group => fst g :: snd g) groups)) st = Ok st'.
Proof.
  induction groups as [|g groups IH]; intros H st; [now exists st|].
  cbn [forallb] in H. apply andb_prop in H as [Hg H].
  cbn [map List.concat]. rewrite scan_app.
  destruct (scan_group p g Hg st) as (s1 & ->). cbn [bind].
  now apply IH.
Qed.

Lemma populate_long_timestamp (atof : string -> double)
      (c : Z -> Z -> Z -> Z -> Z -> float -> float)
      (md : WorldViewMetadataContainer) :
  (17 <= String.length (datetime md))%nat ->
  succeeds (populate_derived_values atof c md) = true.
Proof.
  intros Hlen. unfold populate_derived_values, substr.
  repeat match goal with
         | |- context [(String.length ?s <? ?n)%nat] =>
             replace (String.length s <? n)%nat with false
               by (symmetry; apply Nat.ltb_ge; lia)
         end.
  reflexivity.
Qed.

(** X16: a file cut into a preamble and groups is read to its end when no
    band key stands in the preamble, every group name can be taken, and band
    keys stand only in groups whose header names one of the eight bands.
    The count is then the number of key lines; with a count other than 18
    the reader throws the incomplete-metadata error, and with 18 key lines
    and a timestamp of 17 characters or more it returns. *)
Theorem well_formed_file_is_read (atof : string -> double) (p : string -> float)
        (c : Z -> Z -> Z -> Z -> Z -> float -> float)
        (preamble : list string) (groups : list group)
        (md : WorldViewMetadataContainer) :
  well_formed_file preamble groups = true ->
  exists st,
    scan p (file_of preamble groups) (initial_state md) = Ok st
    /\ found_count st = field_hits (file_of preamble groups)
    /\ (field_hits (file_of preamble groups) <> 2 * NUM_WORLDVIEW_BANDS + 2 ->
        load_from_lines atof p c (file_of preamble groups) md
        = Throw MetadataIncompleteError)
    /\ (field_hits (file_of preamble groups) = 2 * NUM_WORLDVIEW_BANDS + 2 ->
        (17 <= String.length (datetime (metadata st)))%nat ->
        succeeds (load_from_lines atof p c (file_of preamble groups) md) = true).
Proof.
  unfold well_formed_file. intros H.
  apply andb_prop in H as [H Hgroups]. apply andb_prop in H as [Hpg Hpk].
  destruct (scan_without_band_keys p preamble (initial_state md) Hpg Hpk) as (s1 & H1).
  destruct (scan_groups p groups Hgroups s1) as (st & H2).
  assert (Hscan : scan p (file_of preamble groups) (initial_state md) = Ok st).
  { unfold file_of. rewrite scan_app, H1. exact H2. }
  assert (Hcount : found_count st = field_hits (file_of preamble groups)).
  { apply scan_count in Hscan. simpl in Hscan. lia. }
  exists st. split; [exact Hscan|]. split; [exact Hcount|].
  unfold load_from_lines, check_complete. rewrite Hscan. cbn [bind]. rewrite Hcount.
  split.
  - intros Hne. apply Z.eqb_neq in Hne. rewrite Hne. reflexivity.
  - intros He Hlen. apply Z.eqb_eq in He. rewrite He. cbn [negb bind].
    now apply populate_long_timestamp.
Qed.

Lemma well_formed_file_is_read_witness :
  well_formed_file [ "bandId = Multi;"%string ] Cases.imd_groups = true
  /\ file_of [ "bandId = Multi;"%string ] Cases.imd_groups = Sample.imd_file
  /\ exists st,
       scan Sample.parse_metadata_line
            (file_of [ "bandId = Multi;"%string ] Cases.imd_groups)
            (initial_state Sample.empty_metadata) = Ok st
       /\ found_count st = field_hits (file_of [ "bandId = Multi;"%string ] Cases.imd_groups).
Proof.
  split; [reflexivity|]. split; [reflexivity|].
  destruct (well_formed_file_is_read Sample.atof Sample.parse_metadata_line
              Sample.compute_earth_sun_distance [ "bandId = Multi;"%string ]
              Cases.imd_groups Sample.empty_metadata eq_refl)
    as (st & H1 & H2 & _).
  exists st. split; assumption.
Defined.

Lemma derive_step_outcome_witness :
  (String.length (datetime Cases.short_time_metadata) < 17)%nat
  /\ populate_derived_values Sample.atof Sample.compute_earth_sun_distance
       Cases.short_time_metadata
     = Throw out_of_range
  /\ (17 <= String.length (datetime Sample.garbage_metadata))%nat
  /\ exists d,
       populate_derived_values Sample.atof Sample.compute_earth_sun_distance
         Sample.garbage_metadata
       = Ok (set_earth_sun_distance Sample.garbage_metadata d).
Proof.
  split; [simpl; lia|]. split.
  - apply (derive_step_outcome Sample.atof Sample.compute_earth_sun_distance
             Cases.short_time_metadata).
    simpl. lia.
  - split; [simpl; lia|].
    apply (derive_step_outcome Sample.atof Sample.compute_earth_sun_distance
             Sample.garbage_metadata).
    simpl. lia.
Defined.
